(** * frameworks.js (kapidox): the behaviour script of the frameworks page

    A shallow embedding of [src/kapidox/data/htmlresource/frameworks.js]:
    the maintainer-column toggle ([updateMaintainers]), the platform filter
    ([updatePlatforms]), the note tooltip ([initNoteTip] and its click
    handler) and the wiring done at page-ready ([main]), over an explicit
    model of the page: the DOM, the two globals of the script and the click
    handlers it has bound.

    The script works on the page through the DOM API, jQuery and the NoteTip
    widget.  They are modelled as far as the script uses them:
    - an element has a tag name, a parent, an id, a class list, attributes,
      the [checked] property and a display state ([show()] / [hide()]);
    - a selector string of one of the shapes [#id], [.class], [tag] or
      [parent > child] selects as jQuery does; what jQuery answers to any
      other string (a selection or a syntax error) is a parameter of the
      development, [other_selectors];
    - JavaScript exceptions are explicit: a statement completes normally or
      throws, and the page keeps the mutations done before the throw;
    - the NoteTip widget is not part of frameworks.js and is modelled from
      what the specification says of it.

    The definitions come first: strings, the document, selectors, the page
    and its statements, the script itself, events, then the notions the
    properties are stated with.  The proofs follow, one part per function
    of the script. *)

From stdpp Require Import base list strings gmap.
From Stdlib Require Import Ascii ZArith.

(** ** Strings *)

(** [String.prototype.split] with a one-character separator: the pieces
    between the separators, in order; an empty input gives one empty piece. *)
Fixpoint js_split (sep : ascii) (s : string) : list string :=
  match s with
  | EmptyString => [EmptyString]
  | String a r =>
      if Ascii.eqb a sep then EmptyString :: js_split sep r
      else match js_split sep r with
           | h :: t => String a h :: t
           | [] => [String a EmptyString]
           end
  end.

(** A JavaScript value that is a string or [null] (the result of
    [getAttribute]). *)
Definition js_string := option string.

(** String concatenation [lit + v]: [null] is converted to ["null"]. *)
Definition js_concat (lit : string) (v : js_string) : string :=
  lit +:+ default "null" v.

(** [Array.prototype.indexOf] on an array of strings: the first index whose
    element is strictly equal to [v], or [-1].  [null] is strictly equal to
    no string. *)
Fixpoint indexOf_from (i : Z) (l : list string) (v : js_string) : Z :=
  match l with
  | [] => (-1)%Z
  | x :: r => if bool_decide (v = Some x) then i else indexOf_from (i + 1)%Z r v
  end.

Definition indexOf (l : list string) (v : js_string) : Z := indexOf_from 0%Z l v.

(** [Array.prototype.every]. *)
Definition every {A} (f : A → bool) (l : list A) : bool := forallb f l.

(** ** The document *)

(** A node is identified by its position in document order. *)
Abbreviation node := nat (only parsing).

Record element := Element {
  el_tag : string;                       (* tag name, lower case *)
  el_parent : option node;               (* parent element *)
  el_id : option string;                 (* the id attribute *)
  el_classes : list string;              (* the class list *)
  el_attrs : list (string * string);     (* the other attributes *)
  el_checked : bool;                     (* the checked property *)
  el_shown : bool                        (* false once hidden by hide() *)
}.

(** The document: its elements in document order. *)
Abbreviation dom := (list element) (only parsing).

Fixpoint assoc (k : string) (l : list (string * string)) : js_string :=
  match l with
  | [] => None
  | (k', v) :: r => if String.eqb k k' then Some v else assoc k r
  end.

Definition has_class (c : string) (e : element) : bool :=
  bool_decide (c ∈ el_classes e).

Definition remove_class (c : string) (e : element) : element :=
  Element (el_tag e) (el_parent e) (el_id e)
          (filter (λ c', c' ≠ c) (el_classes e))
          (el_attrs e) (el_checked e) (el_shown e).

Definition add_class (c : string) (e : element) : element :=
  Element (el_tag e) (el_parent e) (el_id e)
          (if has_class c e then el_classes e else el_classes e ++ [c])
          (el_attrs e) (el_checked e) (el_shown e).

Definition set_shown (b : bool) (e : element) : element :=
  Element (el_tag e) (el_parent e) (el_id e) (el_classes e)
          (el_attrs e) (el_checked e) b.

Definition set_checked (b : bool) (e : element) : element :=
  Element (el_tag e) (el_parent e) (el_id e) (el_classes e)
          (el_attrs e) b (el_shown e).

(** The nodes of [d], in document order, whose element satisfies [P]. *)
Definition node_sat (P : node → element → bool) (d : dom) (n : node) : bool :=
  match d !! n with Some e => P n e | None => false end.

Definition nodes_where (P : node → element → bool) (d : dom) : list node :=
  filter (λ n, node_sat P d n = true) (seq 0 (length d)).

(** [f] applied in place to each node of [ns], first to last. *)
Definition update_nodes (f : element → element) (ns : list node) (d : dom) : dom :=
  foldl (λ d' n, alter f n d') d ns.

(** ** Selectors *)

Definition is_letter (a : ascii) : bool :=
  let n := nat_of_ascii a in
  ((65 <=? n) && (n <=? 90)) || ((97 <=? n) && (n <=? 122)).

Definition is_digit (a : ascii) : bool :=
  let n := nat_of_ascii a in (48 <=? n) && (n <=? 57).

Definition is_name_char (a : ascii) : bool :=
  is_letter a || is_digit a || Ascii.eqb a "-"%char || Ascii.eqb a "_"%char.

(** A run of name characters (possibly empty): what may follow the start of
    a CSS identifier. *)
Fixpoint css_name (s : string) : bool :=
  match s with
  | EmptyString => true
  | String a r => is_name_char a && css_name r
  end.

Definition css_ident (s : string) : bool :=
  match s with
  | EmptyString => false
  | String a r => (is_letter a || Ascii.eqb a "_"%char) && css_name r
  end.

Inductive simple_selector :=
  | by_id (i : string)
  | by_class (c : string)
  | by_tag (t : string).

Inductive selector :=
  | sel_simple (s : simple_selector)
  | sel_child (parent child : simple_selector).

Definition parse_simple (s : string) : option simple_selector :=
  match s with
  | EmptyString => None
  | String a r =>
      if Ascii.eqb a "#"%char then
        if css_ident r then Some (by_id r) else None
      else if Ascii.eqb a "."%char then
        if css_ident r then Some (by_class r) else None
      else if css_ident s then Some (by_tag s) else None
  end.

(** Is [s] of the form [" > " ++ r]? *)
Definition child_combinator (s : string) : option string :=
  match s with
  | String a (String b (String c r)) =>
      if Ascii.eqb a " "%char && Ascii.eqb b ">"%char && Ascii.eqb c " "%char
      then Some r else None
  | _ => None
  end.

(** Cuts a selector at its first [" > "]. *)
Fixpoint cut_child (s : string) : option (string * string) :=
  match child_combinator s with
  | Some r => Some (EmptyString, r)
  | None =>
      match s with
      | EmptyString => None
      | String a r =>
          match cut_child r with
          | Some (l, r') => Some (String a l, r')
          | None => None
          end
      end
  end.

Definition parse_selector (s : string) : option selector :=
  match cut_child s with
  | Some (l, r) =>
      match parse_simple l, parse_simple r with
      | Some p, Some c => Some (sel_child p c)
      | _, _ => None
      end
  | None => sel_simple <$> parse_simple s
  end.

Definition matches_simple (s : simple_selector) (e : element) : bool :=
  match s with
  | by_id i => bool_decide (el_id e = Some i)
  | by_class c => has_class c e
  | by_tag t => String.eqb (el_tag e) t
  end.

(** The first element with the given id ([document.getElementById]). *)
Definition find_id (i : string) (d : dom) : option node :=
  head (nodes_where (λ _ e, matches_simple (by_id i) e) d).

(** The elements a selector matches, in document order.  A bare [#id]
    gives at most one element, as [getElementById] does. *)
Definition select (sel : selector) (d : dom) : list node :=
  match sel with
  | sel_simple (by_id i) => option_list (find_id i d)
  | sel_simple s => nodes_where (λ _ e, matches_simple s e) d
  | sel_child p c =>
      nodes_where (λ _ e, matches_simple c e &&
                          match el_parent e with
                          | Some m => node_sat (λ _ e', matches_simple p e') d m
                          | None => false
                          end) d
  end.

(** ** The page and the script's effects *)

(** The script's function values, named: the closure given to [onHide] and
    the three click handlers. *)
Inductive callback := clear_described.

Inductive handler :=
  | h_updateMaintainers
  | h_updatePlatforms
  | h_noteClick.

(** Modelled from the spec: the NoteTip tooltip widget, whose source is not
    in frameworks.js.  The spec gives it a constructor, a settable [onHide]
    callback, [setText(text)], [show(anchorElement)] and [hide()]; it is one
    shared instance that is either hidden or shown anchored to an element,
    and its hide event runs [onHide]. *)
Record NoteTip := mkNoteTip {
  tip_text : js_string;           (* the content set by setText *)
  tip_anchor : option node;       (* Some E: shown anchored to E; None: hidden *)
  tip_onHide : option callback
}.

(** The value of [g_currentlyDescribedElement]. *)
Inductive js_ref :=
  | js_undefined
  | js_null
  | js_element (n : node).

Record page := Page {
  document : dom;
  g_noteTip : option NoteTip;                 (* None: still undefined *)
  g_currentlyDescribedElement : js_ref;
  listeners : list (node * handler)           (* click handlers, in binding order *)
}.

Inductive js_error :=
  | TypeError            (* a property of null or undefined was read *)
  | SyntaxError.         (* jQuery: unrecognized selector expression *)

Inductive completion (A : Type) :=
  | Normal (a : A)
  | Throw (e : js_error).
Arguments Normal {A} a.
Arguments Throw {A} e.

(** A statement: runs on a page, completes normally or throws, and leaves a
    page. *)
Definition JS (A : Type) : Type := page → completion A * page.

Definition js_ret {A} (a : A) : JS A := λ p, (Normal a, p).

Definition js_bind {A B} (m : JS A) (k : A → JS B) : JS B :=
  λ p, match m p with
       | (Normal a, p') => k a p'
       | (Throw e, p') => (Throw e, p')
       end.

Definition js_throw {A} (e : js_error) : JS A := λ p, (Throw e, p).

#[global] Instance JS_ret : MRet JS := @js_ret.
#[global] Instance JS_bind : MBind JS := λ A B k m, js_bind m k.

Definition get_document : JS dom := λ p, (Normal (document p), p).

Definition with_document (d : dom) (p : page) : page :=
  Page d (g_noteTip p) (g_currentlyDescribedElement p) (listeners p).

Definition set_document (d : dom) : JS unit :=
  λ p, (Normal (), with_document d p).

Definition get_described : JS js_ref :=
  λ p, (Normal (g_currentlyDescribedElement p), p).

Definition set_described (r : js_ref) : JS unit :=
  λ p, (Normal (), Page (document p) (g_noteTip p) r (listeners p)).

Definition set_noteTip (t : NoteTip) : JS unit :=
  λ p, (Normal (), Page (document p) (Some t) (g_currentlyDescribedElement p) (listeners p)).

(** Reading [g_noteTip] to call a method on it: a TypeError while it is
    undefined. *)
Definition the_noteTip : JS NoteTip :=
  λ p, match g_noteTip p with
       | Some t => (Normal t, p)
       | None => (Throw TypeError, p)
       end.

Definition get_listeners : JS (list (node * handler)) :=
  λ p, (Normal (listeners p), p).

Definition add_listeners (l : list (node * handler)) : JS unit :=
  λ p, (Normal (), Page (document p) (g_noteTip p) (g_currentlyDescribedElement p)
                        (listeners p ++ l)).

(** *** DOM API *)

Definition getElementById (i : string) : JS (option node) :=
  d ← get_document; mret (find_id i d).

(** [x.checked] for [x] the result of [getElementById]. *)
Definition prop_checked (x : option node) : JS bool :=
  match x with
  | None => js_throw TypeError
  | Some n => d ← get_document; mret (from_option el_checked false (d !! n))
  end.

Definition getAttribute (n : node) (name : string) : JS js_string :=
  d ← get_document; mret (e ← d !! n; assoc name (el_attrs e)).

(** [s.split(",")]: a TypeError when [s] is null. *)
Definition split (s : js_string) (sep : ascii) : JS (list string) :=
  match s with
  | None => js_throw TypeError
  | Some s => mret (js_split sep s)
  end.

(** *** jQuery *)

Section jquery.

(** What jQuery answers to a selector string outside the shapes modelled
    above, on a given document: some selection, or a syntax error.  The
    development holds for every such answer. *)
Variable other_selectors : string → dom → completion (list node).

(** [$(selector)]. *)
Definition jq (s : string) : JS (list node) :=
  match parse_selector s with
  | Some sel => d ← get_document; mret (select sel d)
  | None => λ p, (other_selectors s (document p), p)
  end.

Definition jq_update (f : element → element) (ns : list node) : JS (list node) :=
  d ← get_document; set_document (update_nodes f ns d);; mret ns.

Definition show := jq_update (set_shown true).
Definition hide := jq_update (set_shown false).
Definition removeClass (c : string) := jq_update (remove_class c).
Definition addClass (c : string) := jq_update (add_class c).

(** A loop over an array with its index, threading the local variables the
    body assigns ([acc]); a throw ends the loop. *)
Fixpoint js_loop {A V} (idx : nat) (l : list A) (body : nat → A → V → JS V)
    (acc : V) : JS V :=
  match l with
  | [] => mret acc
  | x :: r => acc' ← body idx x acc; js_loop (S idx) r body acc'
  end.

(** [$(...).each(function(idx, x) {...})]: the callback runs on each matched
    node in document order. *)
Definition each {V} (ns : list node) (acc : V) (f : nat → node → V → JS V) : JS V :=
  js_loop 0 ns f acc.

(** [for (var idx = 0; idx < l.length; ++idx) { var x = l[idx]; ... }]. *)
Definition for_each {A} (l : list A) (body : nat → A → JS unit) : JS unit :=
  js_loop 0 l (λ idx x _, body idx x) ().

(** [$(...).click(h)]. *)
Definition click (h : handler) (ns : list node) : JS unit :=
  add_listeners ((λ n, (n, h)) <$> ns).

(** ** The script *)

Definition updateMaintainers : JS unit :=
  checkbox ← getElementById "showMaintainers";
  c ← prop_checked checkbox;
  if (c : bool) then
    jq ".framework-maintainer-column" ≫= show;; mret ()
  else
    jq ".framework-maintainer-column" ≫= hide;; mret ().

(** The body of the [each] over the rows, for the row [tr]; [$(tr)] is the
    one-element selection [[tr]]. *)
Definition mark_row (wantedPlatforms : list js_string) (tr : node) : JS unit :=
  a ← getAttribute tr "data-platforms";
  fwPlatforms ← split a ","%char;
  let show_row := every (λ platform,
                    negb (indexOf fwPlatforms platform =? -1)%Z) wantedPlatforms in
  if show_row then
    removeClass "not-available" [tr] ≫= addClass "available";; mret ()
  else
    removeClass "available" [tr] ≫= addClass "not-available";; mret ().

(** Lines 24-30: the tags of the checked platform checkboxes, pushed in
    document order. *)
Definition collect_wanted (platformCheckboxes : list node) : JS (list js_string) :=
  each platformCheckboxes [] (λ idx checkbox wantedPlatforms,
    c ← prop_checked (Some checkbox);
    if (c : bool) then
      platform ← getAttribute checkbox "data-platform";
      mret (wantedPlatforms ++ [platform])
    else mret wantedPlatforms).

(** Lines 31-34. *)
Definition mark_required (wantedPlatforms : list js_string) : JS unit :=
  for_each wantedPlatforms (λ idx platform,
    jq (js_concat ".framework-platform-" platform)
      ≫= addClass "framework-platform-required";; mret ()).

(** Lines 35-45. *)
Definition mark_rows (wantedPlatforms : list js_string) : JS unit :=
  rows ← jq ".framework-row";
  each rows () (λ idx tr _, mark_row wantedPlatforms tr).

Definition updatePlatforms : JS unit :=
  doFilter ← getElementById "platform-filter" ≫= prop_checked;
  jq ".framework-platform" ≫= removeClass "framework-platform-required";;
  if (doFilter : bool) then
    jq "#platform-filter-group" ≫= show;;
    platformCheckboxes ← jq ".platform-checkbox";
    wantedPlatforms ← collect_wanted platformCheckboxes;
    mark_required wantedPlatforms;;
    mark_rows wantedPlatforms
  else
    jq "#platform-filter-group" ≫= hide;;
    (jq ".framework-row" ≫= removeClass "not-available") ≫= removeClass "available";;
    mret ().

(** *** The tooltip *)

Definition run_callback (c : callback) : JS unit :=
  match c with
  | clear_described => set_described js_null
  end.

(** Modelled from the spec: [new NoteTip()] gives a hidden tooltip with no
    text and no [onHide]. *)
Definition new_NoteTip : NoteTip := mkNoteTip None None None.

(** Modelled from the spec: [setText] sets the content. *)
Definition NoteTip_setText (text : js_string) : JS unit :=
  t ← the_noteTip;
  set_noteTip (mkNoteTip text (tip_anchor t) (tip_onHide t)).

(** Modelled from the spec: [show(E)] shows the tooltip anchored to [E]. *)
Definition NoteTip_show (target : node) : JS unit :=
  t ← the_noteTip;
  set_noteTip (mkNoteTip (tip_text t) (Some target) (tip_onHide t)).

(** Modelled from the spec: [hide()] hides the tooltip, which is its hide
    event: the [onHide] callback runs when one is set. *)
Definition NoteTip_hide : JS unit :=
  t ← the_noteTip;
  set_noteTip (mkNoteTip (tip_text t) None (tip_onHide t));;
  match tip_onHide t with
  | Some c => run_callback c
  | None => mret ()
  end.

(** [g_currentlyDescribedElement == this], for [this] an element. *)
Definition ref_is (r : js_ref) (this : node) : bool :=
  match r with
  | js_element n => bool_decide (n = this)
  | _ => false
  end.

(** The click handler of the note links; the result is what the function
    returns ([false]). *)
Definition noteClick (this : node) : JS bool :=
  r ← get_described;
  (if ref_is r this then
     NoteTip_hide
   else
     set_described (js_element this);;
     text ← getAttribute this "data-note";
     NoteTip_setText text;;
     NoteTip_show this);;
  mret false.

Definition initNoteTip : JS unit :=
  set_noteTip new_NoteTip;;
  t ← the_noteTip;
  set_noteTip (mkNoteTip (tip_text t) (tip_anchor t) (Some clear_described));;
  jq ".framework-platform > a" ≫= click h_noteClick.

Definition main : JS unit :=
  jq "#showMaintainers" ≫= click h_updateMaintainers;;
  jq "#platform-filter" ≫= click h_updatePlatforms;;
  jq ".platform-checkbox" ≫= click h_updatePlatforms;;
  initNoteTip;;
  updateMaintainers.

(** ** Events *)

(** What the page receives after it is ready: a click delivered to an
    element (the user's click on it, or one that bubbles up to it from a
    descendant), or the tooltip's own hide event. *)
Inductive event :=
  | UserClick (target : node)
  | TipHide.

(** The call of a bound handler; the result is [false] when the handler
    returned [false] (jQuery then cancels the default action). *)
Definition run_handler (h : handler) (this : node) : JS bool :=
  match h with
  | h_updateMaintainers => updateMaintainers;; mret true
  | h_updatePlatforms => updatePlatforms;; mret true
  | h_noteClick => noteClick this
  end.

(** The handlers bound to [target] run in binding order. *)
Fixpoint run_listeners (l : list (node * handler)) (target : node) : JS unit :=
  match l with
  | [] => mret ()
  | (n, h) :: r =>
      (if bool_decide (n = target) then run_handler h target;; mret () else mret ());;
      run_listeners r target
  end.

Definition is_checkbox (e : element) : bool :=
  String.eqb (el_tag e) "input" &&
  bool_decide (assoc "type" (el_attrs e) = Some "checkbox").

(** The browser's part of a click: a checkbox flips its [checked] property
    before the click handlers run. *)
Definition activate (target : node) : JS unit :=
  d ← get_document;
  match d !! target with
  | Some e =>
      if is_checkbox e
      then set_document (alter (set_checked (negb (el_checked e))) target d)
      else mret ()
  | None => mret ()
  end.

Definition dispatch (ev : event) : JS unit :=
  match ev with
  | UserClick target =>
      activate target;;
      l ← get_listeners;
      run_listeners l target
  | TipHide => NoteTip_hide
  end.

(** An exception that leaves a handler is reported by the browser; the page
    stays as the handler left it and later events are served. *)
Definition after (m : JS unit) (p : page) : page := (m p).2.

Definition serve (p : page) (evs : list event) : page :=
  foldl (λ p' ev, after (dispatch ev) p') p evs.

(** The page as loaded, before the script has run. *)
Definition loaded (d : dom) : page := Page d None js_undefined [].

(** The page once [main] has run at page-ready. *)
Definition ready (d : dom) : page := after main (loaded d).

(** The note links, the controls, and the handlers [main] binds to them. *)
Definition note_links (d : dom) : list node :=
  select (sel_child (by_class "framework-platform") (by_tag "a")) d.

Definition controls (d : dom) : list node :=
  select (sel_simple (by_id "showMaintainers")) d ++
  select (sel_simple (by_id "platform-filter")) d ++
  select (sel_simple (by_class "platform-checkbox")) d.

Definition bound_handlers (d : dom) : list (node * handler) :=
  ((λ n, (n, h_updateMaintainers)) <$> select (sel_simple (by_id "showMaintainers")) d) ++
  ((λ n, (n, h_updatePlatforms)) <$> select (sel_simple (by_id "platform-filter")) d) ++
  ((λ n, (n, h_updatePlatforms)) <$> select (sel_simple (by_class "platform-checkbox")) d) ++
  ((λ n, (n, h_noteClick)) <$> note_links d).

(** ** Notions of the specification *)

(** The wanted-platform set: the tags of the checked platform checkboxes. *)
Definition wanted_set (d : dom) : gset string :=
  list_to_set (omap (λ e, if has_class "platform-checkbox" e && el_checked e
                          then assoc "data-platform" (el_attrs e) else None) d).

(** A row's platform set: its [data-platforms] attribute split on commas. *)
Definition platform_set (data_platforms : string) : gset string :=
  list_to_set (js_split ","%char data_platforms).

(** The state of the platform-filter checkbox as [updatePlatforms] reads it;
    [None] when the page has no such element. *)
Definition filter_enabled (d : dom) : option bool :=
  n ← find_id "platform-filter" d; el_checked <$> d !! n.

(** The state of the showMaintainers checkbox. *)
Definition maintainers_wanted (d : dom) : option bool :=
  n ← find_id "showMaintainers" d; el_checked <$> d !! n.

(** Well-formed markup: every platform checkbox has a [data-platform] tag
    made of name characters, and every row has a [data-platforms]
    attribute. *)
Definition checkbox_ok (e : element) : bool :=
  negb (has_class "platform-checkbox" e) ||
  match assoc "data-platform" (el_attrs e) with
  | Some t => css_name t
  | None => false
  end.

Definition row_ok (e : element) : bool :=
  negb (has_class "framework-row" e) ||
  bool_decide (is_Some (assoc "data-platforms" (el_attrs e))).

Definition checkboxes_ok (d : dom) : bool := forallb checkbox_ok d.
Definition rows_ok (d : dom) : bool := forallb row_ok d.

(** Every maintainer-column element has the display state [b]. *)
Definition columns_shown (b : bool) (d : dom) : bool :=
  forallb (λ e, negb (has_class "framework-maintainer-column" e) ||
                bool_decide (el_shown e = b)) d.

(** The states of the note tooltip. *)
Inductive tip_state :=
  | Hidden
  | Shown (E : node).

(** The state a page is in, once [initNoteTip] has set the tooltip up:
    [Shown E] when the tooltip is shown anchored to [E] and [E] is the
    currently described element, [Hidden] when the tooltip is hidden and
    no element is described. *)
Definition note_state (p : page) : option tip_state :=
  match g_noteTip p with
  | Some (mkNoteTip _ anchor (Some clear_described)) =>
      match anchor, g_currentlyDescribedElement p with
      | Some E, js_element E' => if bool_decide (E = E') then Some (Shown E) else None
      | Some _, _ => None
      | None, js_element _ => None
      | None, _ => Some Hidden
      end
  | _ => None
  end.

(** No platform checkbox is checked. *)
Definition no_platform_checked (d : dom) : bool :=
  forallb (λ e, negb (has_class "platform-checkbox" e && el_checked e)) d.

(** No row carries both marks. *)
Definition exclusive (e : element) : bool :=
  negb (has_class "available" e && has_class "not-available" e).

Definition rows_exclusive (d : dom) : bool :=
  forallb (λ e, negb (has_class "framework-row" e) || exclusive e) d.

(** ** Notions used in the proofs *)

(** An element without its attributes. *)
Definition strip_attrs (e : element) : element :=
  Element (el_tag e) (el_parent e) (el_id e) (el_classes e) [] (el_checked e)
          (el_shown e).

(** The two row marks as one update of the row. *)
Definition mark_available (e : element) : element :=
  add_class "available" (remove_class "not-available" e).

Definition mark_not_available (e : element) : element :=
  add_class "not-available" (remove_class "available" e).

(** What the [each] over the rows does to a row element. *)
Definition mark_element (wantedPlatforms : list js_string) (e : element) : element :=
  match assoc "data-platforms" (el_attrs e) with
  | Some s =>
      if every (λ platform,
           negb (indexOf (js_split ","%char s) platform =? -1)%Z) wantedPlatforms
      then mark_available e else mark_not_available e
  | None => e
  end.

(** The list [collect_wanted] builds, read off the document. *)
Definition wanted_list (d : dom) : list js_string :=
  omap (λ n, e ← d !! n;
             if el_checked e then Some (assoc "data-platform" (el_attrs e)) else None)
       (nodes_where (λ _ e, has_class "platform-checkbox" e) d).

(** The node [n] is an element with a [data-platforms] attribute. *)
Definition has_platforms (d : dom) (n : node) : Prop :=
  ∃ e, d !! n = Some e ∧ is_Some (assoc "data-platforms" (el_attrs e)).

(** What one round of the loop of [mark_required] does to the document. *)
Definition require_step (d : dom) (platform : js_string) : dom :=
  update_nodes (add_class "framework-platform-required")
    (select (sel_simple (by_class (js_concat "framework-platform-" platform))) d) d.

(** [p'] differs from [p] only in the document, and there elementwise
    within [E]. *)
Definition dom_rel (E : element → element → Prop) (p p' : page) : Prop :=
  g_noteTip p' = g_noteTip p ∧
  g_currentlyDescribedElement p' = g_currentlyDescribedElement p ∧
  listeners p' = listeners p ∧
  Forall2 E (document p) (document p').

(** [p'] has a document elementwise within [E] of that of [p]. *)
Definition doc_rel (E : element → element → Prop) (p p' : page) : Prop :=
  Forall2 E (document p) (document p').

(** The tag names are the same. *)
Definition same_tag (e e' : element) : Prop := el_tag e' = el_tag e.

(** [p'] has the listeners of [p]. *)
Definition same_listeners (p p' : page) : Prop := listeners p' = listeners p.

(** [p'] has a note state when [p] has one. *)
Definition keeps_note_state (p p' : page) : Prop :=
  is_Some (note_state p) → is_Some (note_state p').

(** [p'] has the document and the listeners of [p]: only the tooltip and
    the described element may differ. *)
Definition tooltip_only (p p' : page) : Prop :=
  document p' = document p ∧ listeners p' = listeners p.

(** A statement that, however it completes, changes the page within [R]. *)
Definition respects (R : page → page → Prop) {A} (m : JS A) : Prop :=
  ∀ p, R p (m p).2.

(** The closure conditions on [E] under which the marking of the rows, and
    then all the updates of [updatePlatforms], stay within [E]. *)
Record rows_closed (E : element → element → Prop) : Prop := {
  closed_pre : PreOrder E;
  closed_mark_available e : E e (mark_available e);
  closed_mark_not_available e : E e (mark_not_available e)
}.

Record script_closed (E : element → element → Prop) : Prop := {
  closed_rows : rows_closed E;
  closed_shown b e : E e (set_shown b e);
  closed_remove_required e : E e (remove_class "framework-platform-required" e);
  closed_add_required e : E e (add_class "framework-platform-required" e);
  closed_remove_available e : E e (remove_class "available" e);
  closed_remove_not_available e : E e (remove_class "not-available" e)
}.

(** Everything but the class list and the display state is the same. *)
Definition same_static (e e' : element) : Prop :=
  el_tag e' = el_tag e ∧ el_parent e' = el_parent e ∧ el_id e' = el_id e ∧
  el_attrs e' = el_attrs e ∧ el_checked e' = el_checked e.

(** The classes outside [marks] are the same. *)
Definition same_classes_but (marks : list string) (e e' : element) : Prop :=
  ∀ c, c ∉ marks → has_class c e' = has_class c e.

(** What the script leaves alone in an element: everything but the display
    state and the three classes it toggles. *)
Definition frame_rel (e e' : element) : Prop :=
  same_static e e' ∧
  same_classes_but ["framework-platform-required"; "available"; "not-available"] e e'.

(** A row stays a row and keeps being exclusive. *)
Definition excl_rel (e e' : element) : Prop :=
  has_class "framework-row" e' = has_class "framework-row" e ∧
  (exclusive e = true → exclusive e' = true).

(** ** A sample page *)

(** A small frameworks page: the three controls, two platform checkboxes
    (Linux and Windows, the latter unchecked), and three rows, the last one
    with an empty [data-platforms].  Some marks are left over in the markup
    (a cell already "required", a row with both row marks), for the runs to
    clean up. *)
Definition input (id : option string) (classes : list string)
    (attrs : list (string * string)) (checked : bool) : element :=
  Element "input" None id classes (("type", "checkbox") :: attrs) checked true.

Definition sample_page (filter_on linux_on : bool) : dom := [
  (* 0 *) input (Some "showMaintainers") [] [] true;
  (* 1 *) input (Some "platform-filter") [] [] filter_on;
  (* 2 *) Element "div" None (Some "platform-filter-group") [] [] false false;
  (* 3 *) input None ["platform-checkbox"] [("data-platform", "Linux")] linux_on;
  (* 4 *) input None ["platform-checkbox"] [("data-platform", "Windows")] false;
  (* 5 *) Element "th" None None ["framework-maintainer-column"] [] false false;
  (* 6 *) Element "tr" None None ["framework-row"]
            [("data-platforms", "Linux,Windows")] false true;
  (* 7 *) Element "td" (Some 6) None
            ["framework-platform"; "framework-platform-Linux"] [] false true;
  (* 8 *) Element "a" (Some 7) None [] [("data-note", "Needs X11")] false true;
  (* 9 *) Element "td" (Some 6) None
            ["framework-platform"; "framework-platform-Windows";
             "framework-platform-required"] [] false true;
  (* 10 *) Element "tr" None None ["framework-row"; "available"; "not-available"]
            [("data-platforms", "Windows")] false true;
  (* 11 *) Element "td" (Some 10) None
            ["framework-platform"; "framework-platform-Windows"] [] false true;
  (* 12 *) Element "a" (Some 11) None [] [("data-note", "No printing")] false true;
  (* 13 *) Element "tr" None None ["framework-row"; "not-available"]
            [("data-platforms", "")] false true
].

Definition sample (filter_on : bool) : dom := sample_page filter_on true.

(** A page made of an enabled filter, one checked platform checkbox per
    wanted tag and one row per [data-platforms] value. *)
Definition filter_page (wanted rows : list string) : dom :=
  input (Some "platform-filter") [] [] true ::
  ((λ t, input None ["platform-checkbox"] [("data-platform", t)] true) <$> wanted) ++
  ((λ s, Element "tr" None None ["framework-row"] [("data-platforms", s)] false true)
     <$> rows).

(** The row marks ("available", "not-available") of the rows of a document. *)
Definition row_marks (d : dom) : list (bool * bool) :=
  omap (λ e, if has_class "framework-row" e
             then Some (has_class "available" e, has_class "not-available" e)
             else None) d.

(** A jQuery that rejects every selector outside the modelled shapes. *)
Definition rejects : string → dom → completion (list node) :=
  λ _ _, Throw SyntaxError.

(** ** Notions used for the further properties *)

(** The attributes are the same; the display state is the same. *)
Definition same_attrs (e e' : element) : Prop := el_attrs e' = el_attrs e.
Definition same_shown (e e' : element) : Prop := el_shown e' = el_shown e.

(** The note of an element in the markup. *)
Definition note_of (d : dom) (E : node) : js_string :=
  e ← d !! E; assoc "data-note" (el_attrs e).

(** The page has the attributes of the markup [d], and a tooltip shown at an
    element has the note of that element as its text. *)
Definition text_matches (d : dom) (p : page) : Prop :=
  Forall2 same_attrs d (document p) ∧
  ∀ t E, g_noteTip p = Some t → tip_anchor t = Some E → tip_text t = note_of d E.

Definition keeps_text (d : dom) (p p' : page) : Prop :=
  text_matches d p → text_matches d p'.

(** Pages without the controls, and with a tag jQuery does not take as a
    class name. *)
Definition rows_only : dom := [
  Element "tr" None None ["framework-row"; "available"]
    [("data-platforms", "Linux")] false true;
  Element "th" None None ["framework-maintainer-column"] [] false true
].

Definition odd_tag_page : dom := [
  input (Some "platform-filter") [] [] true;
  input None ["platform-checkbox"] [("data-platform", "C++")] true;
  Element "tr" None None ["framework-row"; "available"]
    [("data-platforms", "Linux")] false true ].

(** What a run changes before it visits the rows: the display state and
    the class "framework-platform-required". *)
Definition before_rows_rel (e e' : element) : Prop :=
  same_static e e' ∧ same_classes_but ["framework-platform-required"] e e'.

(** A page whose second row lacks the [data-platforms] attribute; the rows
    carry marks of an earlier run. *)
Definition broken_row_page : dom := [
  input (Some "platform-filter") [] [] true;
  input None ["platform-checkbox"] [("data-platform", "Linux")] true;
  Element "tr" None None ["framework-row"; "not-available"]
    [("data-platforms", "Linux")] false true;
  Element "tr" None None ["framework-row"; "available"] [] false true;
  Element "tr" None None ["framework-row"; "available"]
    [("data-platforms", "Windows")] false true ].

(** What no event changes in an element: its tag, parent, id and
    attributes, and the classes other than the three the script toggles. *)
Definition markup_rel (e e' : element) : Prop :=
  el_tag e' = el_tag e ∧ el_parent e' = el_parent e ∧ el_id e' = el_id e ∧
  el_attrs e' = el_attrs e ∧
  same_classes_but ["framework-platform-required"; "available"; "not-available"] e e'.

(** What holds of every page reached from the markup [d]: the document
    differs from the markup within [markup_rel], and the tooltip is set
    up. *)
Definition page_inv (d : dom) (q : page) : Prop :=
  Forall2 markup_rel d (document q) ∧ is_Some (note_state q).

(** The tags of the checked platform checkboxes, where present, are made
    of name characters. *)
Definition tags_ok (d : dom) : bool :=
  forallb (λ e, negb (has_class "platform-checkbox" e && el_checked e) ||
                match assoc "data-platform" (el_attrs e) with
                | Some t => css_name t
                | None => true
                end) d.

(** A page with a checked platform checkbox that has no tag. *)
Definition untagged_page : dom := [
  input (Some "platform-filter") [] [] true;
  input None ["platform-checkbox"] [] true;
  Element "tr" None None ["framework-row"; "available"]
    [("data-platforms", "Linux")] false true;
  Element "tr" None None ["framework-row"] [("data-platforms", "null")] false true ].

(** * Proofs *)

(** Closes [c ∉ [c1; ...; cn]] for distinct string literals. *)
Ltac solve_notin :=
  let H := fresh in
  intros H; repeat (apply elem_of_cons in H as [H|H]; [discriminate H|]);
  by apply elem_of_nil in H.

(** Closes [c ∈ [c1; ...; cn]] for string literals. *)
Ltac solve_in := repeat first [by left | right].

(** ** Classes *)

Lemma has_class_true c e : has_class c e = true ↔ c ∈ el_classes e.
Proof. unfold has_class. apply bool_decide_eq_true. Qed.

Lemma has_class_remove_class c c' e :
  has_class c (remove_class c' e) = has_class c e && bool_decide (c ≠ c').
Proof.
  apply eq_true_iff_eq. rewrite andb_true_iff, !has_class_true, bool_decide_eq_true.
  unfold remove_class; simpl. rewrite list_elem_of_filter. tauto.
Qed.

Lemma has_class_add_class c c' e :
  has_class c (add_class c' e) = has_class c e || bool_decide (c = c').
Proof.
  apply eq_true_iff_eq. rewrite orb_true_iff, !has_class_true, bool_decide_eq_true.
  unfold add_class; simpl. destruct (has_class c' e) eqn:Hc.
  - apply has_class_true in Hc. split; [tauto|]. intros [?| ->]; done.
  - rewrite elem_of_app, list_elem_of_singleton. tauto.
Qed.

Lemma has_class_set_shown c b e : has_class c (set_shown b e) = has_class c e.
Proof. reflexivity. Qed.

(** ** Selections *)

Lemma elem_of_nodes_where P d n : n ∈ nodes_where P d ↔ node_sat P d n = true.
Proof.
  unfold nodes_where. rewrite list_elem_of_filter, elem_of_seq.
  split; [tauto|]. intros H. split; [done|].
  unfold node_sat in H. destruct (d !! n) eqn:E; [|done].
  apply lookup_lt_Some in E. lia.
Qed.

Lemma NoDup_nodes_where P d : NoDup (nodes_where P d).
Proof. apply NoDup_filter, NoDup_seq. Qed.

Lemma length_update_nodes f ns d : length (update_nodes f ns d) = length d.
Proof.
  unfold update_nodes. revert d. induction ns as [|n ns IH]; intros d; cbn [foldl]; [done|].
  by rewrite IH, length_alter.
Qed.

Lemma update_nodes_notin f ns d n : n ∉ ns → update_nodes f ns d !! n = d !! n.
Proof.
  unfold update_nodes. revert d. induction ns as [|m ns IH]; intros d Hn; cbn [foldl]; [done|].
  apply not_elem_of_cons in Hn as [Hne Hn].
  rewrite IH by done. by apply list_lookup_alter_ne.
Qed.

Lemma update_nodes_in f ns d n :
  NoDup ns → n ∈ ns → update_nodes f ns d !! n = f <$> d !! n.
Proof.
  unfold update_nodes. revert d. induction ns as [|m ns IH]; intros d Hnd Hn; cbn [foldl].
  - by apply elem_of_nil in Hn.
  - apply NoDup_cons in Hnd as [Hm Hnd].
    apply elem_of_cons in Hn as [->|Hn].
    + fold (update_nodes f ns (alter f m d)).
      rewrite update_nodes_notin by done. apply list_lookup_alter_eq.
    + rewrite IH by done. rewrite list_lookup_alter_ne; [done|]. intros ->. done.
Qed.

Lemma update_nodes_where f P d n :
  update_nodes f (nodes_where P d) d !! n =
  (λ e, if P n e then f e else e) <$> d !! n.
Proof.
  destruct (decide (n ∈ nodes_where P d)) as [Hn|Hn].
  - rewrite update_nodes_in by auto using NoDup_nodes_where.
    apply elem_of_nodes_where in Hn. unfold node_sat in Hn.
    destruct (d !! n); simpl; [|done]. by rewrite Hn.
  - rewrite update_nodes_notin by done.
    rewrite elem_of_nodes_where in Hn. unfold node_sat in Hn.
    destruct (d !! n); simpl; [|done]. by destruct (P n e).
Qed.

(** ** Statements *)

Lemma bind_unfold {A B} (m : JS A) (k : A → JS B) p :
  (m ≫= k) p = match m p with
               | (Normal a, p') => k a p'
               | (Throw e, p') => (Throw e, p')
               end.
Proof. reflexivity. Qed.

Lemma jq_update_eval f ns p :
  jq_update f ns p = (Normal ns, with_document (update_nodes f ns (document p)) p).
Proof. reflexivity. Qed.

Lemma jq_eval s sel p :
  parse_selector s = Some sel → jq s p = (Normal (select sel (document p)), p).
Proof. intros H. unfold jq. by rewrite H. Qed.

Lemma update_nodes_singleton f n d : update_nodes f [n] d = alter f n d.
Proof. reflexivity. Qed.

(** ** Changes within a relation on pages *)

Section respects.
Context (R : page → page → Prop) `{!PreOrder R}.

Lemma respects_pure {A} (m : JS A) : (∀ p, (m p).2 = p) → respects R m.
Proof. intros H p. rewrite H. reflexivity. Qed.

Lemma respects_ret {A} (a : A) : respects R (mret a).
Proof. by apply respects_pure. Qed.

Lemma respects_throw {A} e : respects R (@js_throw A e).
Proof. by apply respects_pure. Qed.

Lemma respects_bind {A B} (m : JS A) (k : A → JS B) :
  respects R m → (∀ a, respects R (k a)) → respects R (m ≫= k).
Proof.
  intros Hm Hk p. rewrite bind_unfold. specialize (Hm p).
  destruct (m p) as [[a|e] p']; simpl in *; [|done].
  etransitivity; [done|]. apply Hk.
Qed.

Lemma respects_loop {A V} (body : nat → A → V → JS V) l idx acc :
  (∀ i x v, respects R (body i x v)) → respects R (js_loop idx l body acc).
Proof.
  intros Hb. revert idx acc. induction l as [|x l IH]; intros idx acc; simpl.
  - apply respects_ret.
  - apply respects_bind; [apply Hb|]. intros v. apply IH.
Qed.

Lemma respects_getElementById i : respects R (getElementById i).
Proof. by apply respects_pure. Qed.

Lemma respects_prop_checked x : respects R (prop_checked x).
Proof. apply respects_pure. by destruct x. Qed.

Lemma respects_getAttribute n a : respects R (getAttribute n a).
Proof. by apply respects_pure. Qed.

Lemma respects_split s c : respects R (split s c).
Proof. apply respects_pure. by destruct s. Qed.

Lemma respects_jq s : respects R (jq s).
Proof. apply respects_pure. intros p. unfold jq. by destruct (parse_selector s). Qed.
End respects.

Lemma respects_weaken (R R' : page → page → Prop) {A} (m : JS A) :
  (∀ p p', R p p' → R' p p') → respects R m → respects R' m.
Proof. intros H Hm p. apply H, Hm. Qed.

(** ** Changes of the document within an element relation *)

Section dom_rel.
Context (E : element → element → Prop) `{!PreOrder E}.

#[global] Instance dom_rel_PreOrder : PreOrder (dom_rel E).
Proof.
  split.
  - intros p. repeat split. reflexivity.
  - intros p1 p2 p3 (?&?&?&H12) (?&?&?&H23). repeat split; try congruence.
    by etransitivity.
Qed.

#[global] Instance doc_rel_PreOrder : PreOrder (doc_rel E).
Proof.
  split.
  - intros p. unfold doc_rel. reflexivity.
  - intros p1 p2 p3 H12 H23. unfold doc_rel in *. by etransitivity.
Qed.

Lemma dom_rel_doc_rel p p' : dom_rel E p p' → doc_rel E p p'.
Proof. by intros (?&?&?&?). Qed.

Lemma Forall2_alter_within f n d : (∀ e, E e (f e)) → Forall2 E d (alter f n d).
Proof.
  intros Hf. apply Forall2_alter_r; [reflexivity|].
  intros x y _ _ Hxy. etransitivity; [done|apply Hf].
Qed.

Lemma Forall2_update_nodes f ns d :
  (∀ e, E e (f e)) → Forall2 E d (update_nodes f ns d).
Proof.
  intros Hf. unfold update_nodes.
  assert (Forall2 E d d) as H0 by reflexivity.
  revert H0. generalize d at 1 3 as d'. revert d.
  induction ns as [|n ns IH]; intros d d' H0; cbn [foldl]; [done|].
  apply IH. apply Forall2_alter_r; [done|].
  intros x y _ _ Hxy. etransitivity; [done|apply Hf].
Qed.

Lemma respects_update f ns :
  (∀ e, E e (f e)) → respects (dom_rel E) (jq_update f ns).
Proof.
  intros Hf p. rewrite jq_update_eval. repeat split. simpl.
  by apply Forall2_update_nodes.
Qed.
End dom_rel.

(** ** The script's functions change the page only within closed relations *)

Section rows_respects.
Context (E : element → element → Prop) (HE : rows_closed E).

#[local] Instance rows_closed_PreOrder : PreOrder E := closed_pre E HE.

#[local] Abbreviation R := (dom_rel E).

Lemma mark_eval c1 c2 tr p :
  (removeClass c1 [tr] ≫= addClass c2;; mret ()) p =
  (Normal (), with_document (alter (λ e, add_class c2 (remove_class c1 e)) tr (document p)) p).
Proof.
  unfold removeClass, addClass. rewrite !bind_unfold, !jq_update_eval.
  unfold with_document; cbn [document g_noteTip g_currentlyDescribedElement listeners].
  rewrite !update_nodes_singleton, list_alter_alter_eq. done.
Qed.

Lemma respects_mark_row w tr : respects R (mark_row w tr).
Proof.
  unfold mark_row. apply (respects_bind R); [apply (respects_getAttribute R)|].
  intros a. apply (respects_bind R); [apply (respects_split R)|]. intros fw.
  assert (∀ f, (∀ e, E e (f e)) → ∀ p,
    dom_rel E p (with_document (alter f tr (document p)) p)) as Halter.
  { intros f Hf p. repeat split. simpl. by apply (Forall2_alter_within E). }
  destruct (every _ w); intros p; rewrite mark_eval; apply Halter.
  - apply (closed_mark_available E HE).
  - apply (closed_mark_not_available E HE).
Qed.

Lemma respects_mark_rows w : respects R (mark_rows w).
Proof.
  unfold mark_rows. apply (respects_bind R); [apply (respects_jq R)|]. intros rows.
  apply (respects_loop R). intros. apply respects_mark_row.
Qed.
End rows_respects.

Section script_respects.
Context (E : element → element → Prop) (HE : script_closed E).

#[local] Instance closed_PreOrder : PreOrder E := closed_pre E (closed_rows E HE).

#[local] Abbreviation R := (dom_rel E).

Lemma respects_show ns : respects R (show ns).
Proof. apply (respects_update E). apply (closed_shown E HE). Qed.

Lemma respects_hide ns : respects R (hide ns).
Proof. apply (respects_update E). apply (closed_shown E HE). Qed.

Lemma respects_collect_wanted cbs : respects R (collect_wanted cbs).
Proof.
  unfold collect_wanted. apply (respects_loop R). intros i x v.
  apply (respects_bind R); [apply (respects_prop_checked R)|]. intros [].
  - apply (respects_bind R); [apply (respects_getAttribute R)|]. intros.
    apply (respects_ret R).
  - apply (respects_ret R).
Qed.

Lemma respects_mark_required w : respects R (mark_required w).
Proof.
  unfold mark_required, for_each. apply (respects_loop R). intros i x v.
  apply (respects_bind R); [|intros; apply (respects_ret R)].
  apply (respects_bind R); [apply (respects_jq R)|]. intros ns.
  apply (respects_update E). apply (closed_add_required E HE).
Qed.

Lemma respects_updatePlatforms : respects R updatePlatforms.
Proof.
  unfold updatePlatforms.
  apply (respects_bind R).
  { apply (respects_bind R); [apply (respects_getElementById R)|].
    intros. apply (respects_prop_checked R). }
  intros doFilter. apply (respects_bind R).
  { apply (respects_bind R); [apply (respects_jq R)|]. intros.
    apply (respects_update E). apply (closed_remove_required E HE). }
  intros _. destruct doFilter.
  - apply (respects_bind R).
    { apply (respects_bind R); [apply (respects_jq R)|]. intros. apply respects_show. }
    intros _. apply (respects_bind R); [apply (respects_jq R)|]. intros cbs.
    apply (respects_bind R); [apply respects_collect_wanted|]. intros w.
    apply (respects_bind R); [apply respects_mark_required|]. intros _.
    apply respects_mark_rows, HE.
  - apply (respects_bind R).
    { apply (respects_bind R); [apply (respects_jq R)|]. intros. apply respects_hide. }
    intros _. apply (respects_bind R); [|intros; apply (respects_ret R)].
    apply (respects_bind R).
    + apply (respects_bind R); [apply (respects_jq R)|]. intros.
      apply (respects_update E). apply (closed_remove_not_available E HE).
    + intros. apply (respects_update E). apply (closed_remove_available E HE).
Qed.

Lemma respects_updateMaintainers : respects R updateMaintainers.
Proof.
  unfold updateMaintainers.
  apply (respects_bind R); [apply (respects_getElementById R)|]. intros cb.
  apply (respects_bind R); [apply (respects_prop_checked R)|]. intros [].
  - apply (respects_bind R); [|intros; apply (respects_ret R)].
    apply (respects_bind R); [apply (respects_jq R)|]. intros. apply respects_show.
  - apply (respects_bind R); [|intros; apply (respects_ret R)].
    apply (respects_bind R); [apply (respects_jq R)|]. intros. apply respects_hide.
Qed.
End script_respects.

(** ** The two element relations are closed under the script's updates *)

Lemma has_class_mark_available c e :
  has_class c (mark_available e) =
  has_class c e && bool_decide (c ≠ "not-available") || bool_decide (c = "available").
Proof. unfold mark_available. by rewrite has_class_add_class, has_class_remove_class. Qed.

Lemma has_class_mark_not_available c e :
  has_class c (mark_not_available e) =
  has_class c e && bool_decide (c ≠ "available") || bool_decide (c = "not-available").
Proof. unfold mark_not_available. by rewrite has_class_add_class, has_class_remove_class. Qed.

Lemma same_classes_remove marks c e :
  c ∈ marks → same_classes_but marks e (remove_class c e).
Proof.
  intros Hc c' Hc'. rewrite has_class_remove_class.
  rewrite bool_decide_eq_true_2; [by rewrite andb_true_r|]. by intros ->.
Qed.

Lemma same_classes_add marks c e :
  c ∈ marks → same_classes_but marks e (add_class c e).
Proof.
  intros Hc c' Hc'. rewrite has_class_add_class.
  rewrite bool_decide_eq_false_2; [by rewrite orb_false_r|]. by intros ->.
Qed.

#[global] Instance same_classes_but_PreOrder marks : PreOrder (same_classes_but marks).
Proof.
  split.
  - by intros e c _.
  - intros e1 e2 e3 H12 H23 c Hc. by rewrite H23, H12.
Qed.

#[global] Instance same_static_PreOrder : PreOrder same_static.
Proof.
  split.
  - by intros e.
  - intros e1 e2 e3 (?&?&?&?&?) (?&?&?&?&?). repeat split; congruence.
Qed.

#[global] Instance frame_rel_PreOrder : PreOrder frame_rel.
Proof.
  split.
  - intros e. split; reflexivity.
  - intros e1 e2 e3 [? ?] [? ?]. split; by etransitivity.
Qed.

Lemma frame_rel_closed : script_closed frame_rel.
Proof.
  split; [split; [apply _|..]|..]; intros; (split; [done|]).
  - unfold mark_available.
    etransitivity; [apply same_classes_remove|apply same_classes_add]; solve_in.
  - unfold mark_not_available.
    etransitivity; [apply same_classes_remove|apply same_classes_add]; solve_in.
  - by intros c _.
  - apply same_classes_remove. solve_in.
  - apply same_classes_add. solve_in.
  - apply same_classes_remove. solve_in.
  - apply same_classes_remove. solve_in.
Qed.

#[global] Instance excl_rel_PreOrder : PreOrder excl_rel.
Proof.
  split.
  - by intros e.
  - intros e1 e2 e3 [? ?] [? ?]. split; [congruence|auto].
Qed.

Lemma excl_rel_closed : script_closed excl_rel.
Proof.
  split; [split; [apply _|..]|..]; intros; unfold excl_rel, exclusive;
    rewrite ?has_class_set_shown, ?has_class_mark_available,
      ?has_class_mark_not_available, ?has_class_remove_class, ?has_class_add_class;
    simpl; rewrite ?andb_true_r, ?orb_false_r, ?andb_false_r, ?orb_true_r;
    (split; [done|]);
    destruct (has_class "available" e), (has_class "not-available" e); done.
Qed.

(** ** Selections depend only on what the selector reads *)

Lemma nodes_where_ext P P' (d d' : list element) :
  length d = length d' →
  (∀ n, node_sat P d n = node_sat P' d' n) →
  nodes_where P d = nodes_where P' d'.
Proof.
  intros Hlen H. unfold nodes_where. rewrite Hlen.
  apply list_filter_iff. intros n. by rewrite H.
Qed.

Lemma node_sat_related (E : element → element → Prop) P (d d' : list element) n :
  Forall2 E d d' → (∀ e e', E e e' → P n e' = P n e) →
  node_sat P d' n = node_sat P d n.
Proof.
  intros HF HP. unfold node_sat.
  destruct (d !! n) as [e|] eqn:He.
  - destruct (Forall2_lookup_l _ _ _ _ _ HF He) as (e'&He'&HE).
    rewrite He'. by apply HP.
  - destruct (d' !! n) as [e'|] eqn:He'; [|done].
    destruct (Forall2_lookup_r _ _ _ _ _ HF He') as (e&He2&_). congruence.
Qed.

Lemma find_id_related (d d' : list element) i :
  Forall2 same_static d d' → find_id i d' = find_id i d.
Proof.
  intros HF. unfold find_id. f_equal. apply nodes_where_ext.
  - symmetry. by eapply Forall2_length.
  - intros n. eapply node_sat_related; [done|].
    intros e e' (?&?&Hid&?&?). simpl. by rewrite Hid.
Qed.

Lemma find_id_lookup i (d : list element) n :
  find_id i d = Some n → ∃ e, d !! n = Some e ∧ el_id e = Some i.
Proof.
  unfold find_id. intros H. apply head_Some_elem_of in H.
  apply elem_of_nodes_where in H. unfold node_sat in H.
  destruct (d !! n) as [e|]; [|done]. exists e. split; [done|].
  simpl in H. by apply bool_decide_eq_true in H.
Qed.

Lemma select_class_related c (d d' : list element) :
  Forall2 frame_rel d d' →
  c ∉ ["framework-platform-required"; "available"; "not-available"] →
  select (sel_simple (by_class c)) d' = select (sel_simple (by_class c)) d.
Proof.
  intros HF Hc. simpl. apply nodes_where_ext.
  - symmetry. by eapply Forall2_length.
  - intros n. eapply node_sat_related; [done|].
    intros e e' [_ Hcl]. simpl. by apply Hcl.
Qed.

(** ** Reading a checkbox *)

Lemma read_checkbox i p :
  (getElementById i ≫= prop_checked) p =
  (match n ← find_id i (document p); el_checked <$> document p !! n with
   | Some b => Normal b
   | None => Throw TypeError
   end, p).
Proof.
  rewrite bind_unfold. unfold getElementById. rewrite bind_unfold. simpl.
  destruct (find_id i (document p)) as [n|] eqn:Hn; simpl; [|done].
  destruct (find_id_lookup _ _ _ Hn) as (e&He&_). unfold prop_checked.
  rewrite bind_unfold. simpl. by rewrite He.
Qed.

Lemma rows_exclusive_lookup (d : list element) :
  rows_exclusive d = true ↔
  ∀ n e, d !! n = Some e → has_class "framework-row" e = true → exclusive e = true.
Proof.
  unfold rows_exclusive. rewrite <-Is_true_true, forallb_True, Forall_lookup.
  apply forall_proper; intros n. apply forall_proper; intros e.
  rewrite Is_true_true, orb_true_iff, negb_true_iff.
  destruct (has_class "framework-row" e).
  - split; [intros H He _; by destruct (H He)|intros H He; right; by apply H].
  - split; [done|]. intros _ _. by left.
Qed.

(** ** The platform filter, disabled *)

(** The document [updatePlatforms] leaves when the filter is disabled. *)
Lemma updatePlatforms_disabled p :
  filter_enabled (document p) = Some false →
  ∃ d1 d2 d3 d4,
    d1 = update_nodes (remove_class "framework-platform-required")
           (nodes_where (λ _ e, has_class "framework-platform" e) (document p)) (document p) ∧
    d2 = update_nodes (set_shown false)
           (option_list (find_id "platform-filter-group" d1)) d1 ∧
    d3 = update_nodes (remove_class "not-available")
           (nodes_where (λ _ e, has_class "framework-row" e) d2) d2 ∧
    d4 = update_nodes (remove_class "available")
           (nodes_where (λ _ e, has_class "framework-row" e) d2) d3 ∧
    updatePlatforms p = (Normal (), with_document d4 p).
Proof.
  intros Hf. do 4 eexists. do 4 (split; [reflexivity|]).
  unfold updatePlatforms. rewrite bind_unfold, read_checkbox.
  unfold filter_enabled in Hf. rewrite Hf.
  rewrite bind_unfold.
  rewrite (bind_unfold (jq ".framework-platform")).
  erewrite jq_eval by reflexivity.
  unfold removeClass at 1. rewrite jq_update_eval.
  rewrite (bind_unfold (_ ≫= hide)), (bind_unfold (jq "#platform-filter-group")).
  erewrite jq_eval by reflexivity. unfold hide. rewrite jq_update_eval.
  rewrite bind_unfold, (bind_unfold _ (removeClass "available")),
    (bind_unfold _ (removeClass "not-available")).
  erewrite jq_eval by reflexivity.
  unfold removeClass. rewrite !jq_update_eval. reflexivity.
Qed.

Lemma update_nodes_where_of f P (d0 d : list element) n :
  update_nodes f (nodes_where P d0) d !! n =
  if node_sat P d0 n then f <$> d !! n else d !! n.
Proof.
  destruct (node_sat P d0 n) eqn:Hs.
  - apply update_nodes_in; [apply NoDup_nodes_where|]. by apply elem_of_nodes_where.
  - apply update_nodes_notin. rewrite elem_of_nodes_where. congruence.
Qed.

Lemma update_nodes_fmap f (g : element → element) ns (d : list element) :
  (∀ e, f (g e) = g (f e)) →
  update_nodes f ns (g <$> d) = g <$> update_nodes f ns d.
Proof.
  intros Hfg. unfold update_nodes. revert d.
  induction ns as [|n ns IH]; intros d; cbn [foldl]; [done|].
  rewrite <-IH. f_equal. symmetry. apply list_fmap_alter.
  apply Forall_forall. intros e _. by rewrite Hfg.
Qed.

Lemma nodes_where_fmap P (g : element → element) (d : list element) :
  (∀ n e, P n (g e) = P n e) → nodes_where P (g <$> d) = nodes_where P d.
Proof.
  intros HP. apply nodes_where_ext; [by rewrite length_fmap|].
  intros n. unfold node_sat. rewrite list_lookup_fmap.
  destruct (d !! n); simpl; [apply HP|done].
Qed.

Lemma same_static_update f ns (d : list element) :
  (∀ e, same_static e (f e)) → Forall2 same_static d (update_nodes f ns d).
Proof. apply (Forall2_update_nodes same_static). Qed.

Lemma disabled_rows_unmarked p n e :
  filter_enabled (document p) = Some false →
  document (updatePlatforms p).2 !! n = Some e →
  has_class "framework-row" e = true →
  has_class "available" e = false ∧ has_class "not-available" e = false.
Proof.
  intros Hf. destruct (updatePlatforms_disabled p Hf) as (d1&d2&d3&d4&H1&H2&H3&H4&Hrun).
  rewrite Hrun. simpl. subst d4 d3.
  rewrite update_nodes_where_of, update_nodes_where. unfold node_sat.
  destruct (d2 !! n) as [e2|]; simpl; [|done].
  destruct (has_class "framework-row" e2) eqn:Hrow; intros He Hrow'; simplify_eq.
  - by rewrite !has_class_remove_class, !andb_false_r.
  - congruence.
Qed.

(** C3. When the platform-filter checkbox is unchecked, [updatePlatforms]
    returns normally, the filter-options panel is hidden, and every
    framework row carries neither "available" nor "not-available", whatever
    the page was before.  No platform membership is evaluated: the run does
    not depend on any attribute of the page, since erasing all attributes
    beforehand gives the same document, attributes apart (and no TypeError,
    which reading the missing data-platforms of a row would raise). *)
Theorem updatePlatforms_filter_unchecked (p : page) :
  filter_enabled (document p) = Some false →
  (updatePlatforms p).1 = Normal () ∧
  (∀ n, find_id "platform-filter-group" (document p) = Some n →
        el_shown <$> document (updatePlatforms p).2 !! n = Some false) ∧
  (∀ n e, document (updatePlatforms p).2 !! n = Some e →
          has_class "framework-row" e = true →
          has_class "available" e = false ∧ has_class "not-available" e = false) ∧
  updatePlatforms (with_document (strip_attrs <$> document p) p) =
    (Normal (), with_document (strip_attrs <$> document (updatePlatforms p).2) p).
Proof.
  intros Hf.
  destruct (updatePlatforms_disabled p Hf) as (d1&d2&d3&d4&H1&H2&H3&H4&Hrun).
  assert (Forall2 same_static (document p) d1) as Hs1.
  { subst d1. by apply same_static_update. }
  split; [by rewrite Hrun|]. split; [|split].
  - intros n Hn. rewrite Hrun. simpl.
    assert (find_id "platform-filter-group" d1 = Some n) as Hn1.
    { by rewrite (find_id_related _ _ _ Hs1). }
    destruct (find_id_lookup _ _ _ Hn1) as (e1&He1&_).
    assert (d2 !! n = Some (set_shown false e1)) as He2.
    { subst d2. rewrite Hn1. change (option_list (Some n)) with [n].
      rewrite update_nodes_singleton.
      by rewrite list_lookup_alter_eq, He1. }
    subst d4 d3. rewrite update_nodes_where_of, update_nodes_where, He2.
    destruct (node_sat _ d2 n); simpl; by destruct (has_class _ _).
  - intros n e. by apply disabled_rows_unmarked.
  - assert (filter_enabled (strip_attrs <$> document p) = Some false) as Hf'.
    { unfold filter_enabled, find_id in *.
      rewrite nodes_where_fmap by done.
      destruct (head _) as [n|]; simpl in *; [|done].
      rewrite list_lookup_fmap. by destruct (document p !! n). }
    destruct (updatePlatforms_disabled (with_document (strip_attrs <$> document p) p) Hf')
      as (d1'&d2'&d3'&d4'&H1'&H2'&H3'&H4'&Hrun').
    rewrite Hrun', Hrun. simpl in *. unfold with_document. simpl. do 2 f_equal.
    assert (d1' = strip_attrs <$> d1) as ->.
    { subst d1' d1. rewrite nodes_where_fmap by done. by apply update_nodes_fmap. }
    assert (d2' = strip_attrs <$> d2) as ->.
    { subst d2' d2. unfold find_id. rewrite nodes_where_fmap by done.
      by apply update_nodes_fmap. }
    assert (d3' = strip_attrs <$> d3) as ->.
    { subst d3' d3. rewrite nodes_where_fmap by done. by apply update_nodes_fmap. }
    subst d4' d4. rewrite nodes_where_fmap by done. by apply update_nodes_fmap.
Qed.

(** ** Selector strings built from a platform tag *)

Lemma name_char_not_space a : is_name_char a = true → Ascii.eqb a " " = false.
Proof.
  intros H. destruct (Ascii.eqb_spec a " ") as [->|]; [|done]. discriminate H.
Qed.

Lemma child_combinator_first a s :
  Ascii.eqb a " " = false → child_combinator (String a s) = None.
Proof. intros H. destruct s as [|b [|c r]]; simpl; by rewrite ?H. Qed.

Lemma cut_child_name s : css_name s = true → cut_child s = None.
Proof.
  induction s as [|a r IH]; [done|]. simpl css_name. intros [Ha Hr]%andb_true_iff.
  cbn [cut_child]. rewrite child_combinator_first by by apply name_char_not_space.
  by rewrite IH.
Qed.

Lemma parse_platform_selector (v : js_string) :
  css_name (default "null" v) = true →
  parse_selector (js_concat ".framework-platform-" v) =
  Some (sel_simple (by_class (js_concat "framework-platform-" v))).
Proof.
  intros Hv. unfold js_concat, parse_selector.
  assert (cut_child (".framework-platform-" +:+ default "null" v) = None) as ->.
  { change (".framework-platform-" +:+ default "null" v)
      with (String "." ("framework-platform-" +:+ default "null" v)).
    cbn [cut_child]. rewrite child_combinator_first by done.
    rewrite cut_child_name; [done|]. exact Hv. }
  change (".framework-platform-" +:+ default "null" v)
    with (String "." ("framework-platform-" +:+ default "null" v)).
  cbn [parse_simple]. change (Ascii.eqb "." "#") with false.
  change (Ascii.eqb "." ".") with true. cbv iota.
  change (css_ident _) with (css_name (default "null" v)).
  by rewrite Hv.
Qed.

(** ** [indexOf] and [every] *)

Lemma indexOf_from_ge i l v : (0 ≤ i)%Z → (indexOf_from i l v = -1)%Z ↔ ∀ x, x ∈ l → v ≠ Some x.
Proof.
  revert i. induction l as [|x l IH]; intros i Hi; simpl.
  - split; [|done]. intros _ x Hx. by apply elem_of_nil in Hx.
  - case_bool_decide as Hv.
    + split; [lia|]. intros H. destruct (H x); [left|done].
    + rewrite IH by lia. split.
      * intros H y [->|Hy]%elem_of_cons; auto.
      * intros H y Hy. apply H. by right.
Qed.

Lemma indexOf_found l v : negb (indexOf l v =? -1)%Z = true ↔ v ∈ (Some <$> l : list js_string).
Proof.
  rewrite negb_true_iff, Z.eqb_neq. unfold indexOf. rewrite indexOf_from_ge by done.
  split.
  - intros H. apply dec_stable. intros Hn. apply H. intros x Hx ->.
    apply Hn. apply list_elem_of_fmap. eauto.
  - intros (x&->&Hx)%list_elem_of_fmap H. by apply (H x).
Qed.

Lemma every_true {A} (f : A → bool) l : every f l = true ↔ ∀ x, x ∈ l → f x = true.
Proof.
  unfold every. rewrite <-Is_true_true, forallb_True, Forall_forall.
  apply forall_proper; intros x. by rewrite Is_true_true.
Qed.

(** ** The platform filter, enabled *)

Lemma collect_loop ns idx acc p :
  js_loop idx ns (λ _ checkbox wantedPlatforms,
    c ← prop_checked (Some checkbox);
    if (c : bool) then
      platform ← getAttribute checkbox "data-platform";
      mret (wantedPlatforms ++ [platform])
    else mret wantedPlatforms) acc p =
  (Normal (acc ++ omap (λ n, e ← document p !! n;
                             if el_checked e
                             then Some (assoc "data-platform" (el_attrs e)) else None) ns),
   p).
Proof.
  revert idx acc. induction ns as [|n ns IH]; intros idx acc.
  - simpl. by rewrite app_nil_r.
  - cbn [js_loop]. rewrite bind_unfold.
    unfold prop_checked at 1. rewrite !bind_unfold. simpl.
    destruct (document p !! n) as [e|] eqn:He; simpl.
    + destruct (el_checked e) eqn:Hc.
      * unfold getAttribute. rewrite !bind_unfold. simpl. rewrite He. simpl.
        rewrite IH. by rewrite <-app_assoc.
      * simpl. by rewrite IH.
    + by rewrite IH.
Qed.

Lemma collect_wanted_eval p :
  collect_wanted (nodes_where (λ _ e, has_class "platform-checkbox" e) (document p)) p =
  (Normal (wanted_list (document p)), p).
Proof. unfold collect_wanted, each. by rewrite collect_loop. Qed.

Lemma mark_required_eval w p :
  (∀ v, v ∈ w → css_name (default "null" v) = true) →
  mark_required w p = (Normal (), with_document (foldl require_step (document p) w) p).
Proof.
  unfold mark_required, for_each. generalize 0 as idx. revert p.
  induction w as [|v w IH]; intros p idx Hw.
  - simpl. by destruct p.
  - cbn [js_loop foldl]. rewrite bind_unfold, bind_unfold.
    rewrite (bind_unfold (jq _)).
    erewrite jq_eval by (apply parse_platform_selector, Hw; left).
    unfold addClass. rewrite jq_update_eval. simpl.
    rewrite IH by (intros; apply Hw; by right). done.
Qed.

Lemma getAttribute_eval n a p :
  getAttribute n a p = (Normal (e ← document p !! n; assoc a (el_attrs e)), p).
Proof. reflexivity. Qed.

Lemma mark_row_eval w tr p e s :
  document p !! tr = Some e → assoc "data-platforms" (el_attrs e) = Some s →
  mark_row w tr p = (Normal (), with_document (alter (mark_element w) tr (document p)) p).
Proof.
  intros He Hs. unfold mark_row.
  rewrite bind_unfold, getAttribute_eval, He. cbn [mbind option_bind]. rewrite Hs.
  rewrite bind_unfold. cbn [split mret JS_ret js_ret].
  assert (alter (mark_element w) tr (document p) =
          alter (if every (λ platform, negb (indexOf (js_split "," s) platform =? -1)%Z) w
                 then mark_available else mark_not_available) tr (document p)) as ->.
  { apply list_alter_ext; [|done..]. intros e' He'. simplify_eq.
    unfold mark_element. rewrite Hs. by destruct (every _ _). }
  destruct (every _ w); by rewrite mark_eval.
Qed.

Lemma mark_row_throw w tr p :
  (∀ e, document p !! tr = Some e → assoc "data-platforms" (el_attrs e) = None) →
  mark_row w tr p = (Throw TypeError, p).
Proof.
  intros H. unfold mark_row, getAttribute. rewrite !bind_unfold. simpl.
  destruct (document p !! tr) as [e|]; simpl; [|done]. by rewrite (H e).
Qed.

Lemma mark_element_attrs w e : el_attrs (mark_element w e) = el_attrs e.
Proof.
  unfold mark_element. destruct (assoc _ _); [|done]. by destruct (every _ _).
Qed.

Lemma has_platforms_alter w tr d n :
  has_platforms (alter (mark_element w) tr d) n ↔ has_platforms d n.
Proof.
  unfold has_platforms. destruct (decide (tr = n)) as [->|Hne].
  - rewrite list_lookup_alter_eq. destruct (d !! n) as [e|]; simpl.
    + split; intros (e'&?&?); simplify_eq; eexists; split; try done.
      * by rewrite mark_element_attrs in *.
      * by rewrite mark_element_attrs.
    + split; intros (?&?&?); done.
  - by rewrite list_lookup_alter_ne.
Qed.

Lemma mark_loop_eval w ns idx p :
  (∀ n, n ∈ ns → has_platforms (document p) n) →
  js_loop idx ns (λ _ tr _, mark_row w tr) () p =
  (Normal (), with_document (update_nodes (mark_element w) ns (document p)) p).
Proof.
  revert idx p. induction ns as [|tr ns IH]; intros idx p Hns.
  - simpl. by destruct p.
  - cbn [js_loop]. rewrite bind_unfold.
    destruct (Hns tr) as (e&He&s&Hs); [left|].
    rewrite (mark_row_eval _ _ _ _ _ He Hs). rewrite IH.
    + done.
    + intros n Hn. simpl. apply has_platforms_alter, Hns. by right.
Qed.

Lemma mark_loop_Normal w ns idx p p' :
  js_loop idx ns (λ _ tr _, mark_row w tr) () p = (Normal (), p') →
  ∀ n, n ∈ ns → has_platforms (document p) n.
Proof.
  revert idx p. induction ns as [|tr ns IH]; intros idx p Hrun n Hn.
  - by apply elem_of_nil in Hn.
  - cbn [js_loop] in Hrun. rewrite bind_unfold in Hrun.
    assert (has_platforms (document p) tr) as Htr.
    { destruct (document p !! tr) as [e|] eqn:He.
      - destruct (assoc "data-platforms" (el_attrs e)) as [s|] eqn:Hs.
        + exists e. eauto.
        + rewrite mark_row_throw in Hrun; [done|]. intros; by simplify_eq.
      - rewrite mark_row_throw in Hrun; [done|]. intros; by simplify_eq. }
    apply elem_of_cons in Hn as [->|Hn]; [done|].
    destruct Htr as (e&He&s&Hs). rewrite (mark_row_eval _ _ _ _ _ He Hs) in Hrun.
    apply IH with (n := n) in Hrun; [|done]. simpl in Hrun.
    by apply has_platforms_alter in Hrun.
Qed.

Lemma updatePlatforms_enabled p :
  filter_enabled (document p) = Some true →
  ∃ d1 d2,
    d1 = update_nodes (remove_class "framework-platform-required")
           (nodes_where (λ _ e, has_class "framework-platform" e) (document p)) (document p) ∧
    d2 = update_nodes (set_shown true)
           (option_list (find_id "platform-filter-group" d1)) d1 ∧
    updatePlatforms p =
      (mark_required (wanted_list d2);; mark_rows (wanted_list d2)) (with_document d2 p).
Proof.
  intros Hf. do 2 eexists. do 2 (split; [reflexivity|]).
  unfold updatePlatforms. rewrite bind_unfold, read_checkbox.
  unfold filter_enabled in Hf. rewrite Hf.
  rewrite bind_unfold.
  rewrite (bind_unfold (jq ".framework-platform")).
  erewrite jq_eval by reflexivity.
  unfold removeClass at 1. rewrite jq_update_eval.
  rewrite (bind_unfold (_ ≫= show)), (bind_unfold (jq "#platform-filter-group")).
  erewrite jq_eval by reflexivity. unfold show. rewrite jq_update_eval.
  rewrite (bind_unfold (jq ".platform-checkbox")).
  erewrite jq_eval by reflexivity.
  rewrite (bind_unfold (collect_wanted _)).
  match goal with |- context [collect_wanted _ ?q] =>
    change (collect_wanted _ q) with
      (collect_wanted (nodes_where (λ _ e, has_class "platform-checkbox" e) (document q)) q)
  end.
  rewrite collect_wanted_eval. reflexivity.
Qed.

(** ** The wanted platforms *)

Lemma elem_of_wanted_list (d : list element) v :
  v ∈ wanted_list d ↔
  ∃ n e, d !! n = Some e ∧ has_class "platform-checkbox" e = true ∧
         el_checked e = true ∧ assoc "data-platform" (el_attrs e) = v.
Proof.
  unfold wanted_list. rewrite list_elem_of_omap. split.
  - intros (n&Hn&Hv). apply elem_of_nodes_where in Hn. unfold node_sat in Hn.
    destruct (d !! n) as [e|] eqn:He; [|done]. simpl in Hv.
    destruct (el_checked e) eqn:Hc; [|done]. simplify_eq. by exists n, e.
  - intros (n&e&He&Hpc&Hc&Hv). exists n. split.
    + apply elem_of_nodes_where. unfold node_sat. by rewrite He.
    + rewrite He. simpl. by rewrite Hc, Hv.
Qed.

Lemma elem_of_wanted_set (d : list element) t :
  t ∈ wanted_set d ↔ Some t ∈ wanted_list d.
Proof.
  unfold wanted_set. rewrite elem_of_list_to_set, list_elem_of_omap, elem_of_wanted_list.
  split.
  - intros (e&[n He]%list_elem_of_lookup&Ht).
    destruct (has_class "platform-checkbox" e) eqn:Hpc; [|done].
    destruct (el_checked e) eqn:Hc; [|done]. by exists n, e.
  - intros (n&e&He&Hpc&Hc&Ht). exists e. split; [by eapply list_elem_of_lookup_2|].
    by rewrite Hpc, Hc.
Qed.

Lemma checkboxes_ok_wanted (d : list element) v :
  checkboxes_ok d = true → v ∈ wanted_list d →
  ∃ t, v = Some t ∧ css_name t = true.
Proof.
  unfold checkboxes_ok. rewrite <-Is_true_true, forallb_True, Forall_lookup.
  intros Hok (n&e&He&Hpc&_&Hv)%elem_of_wanted_list.
  specialize (Hok n e He). apply Is_true_true in Hok. unfold checkbox_ok in Hok.
  rewrite Hpc, Hv in Hok. simpl in Hok. destruct v as [t|]; [|done]. eauto.
Qed.

Lemma wanted_list_related (d d' : list element) :
  Forall2 frame_rel d d' → wanted_list d' = wanted_list d.
Proof.
  intros HF. unfold wanted_list.
  change (nodes_where (λ _ e, has_class "platform-checkbox" e) d')
    with (select (sel_simple (by_class "platform-checkbox")) d').
  rewrite (select_class_related _ _ _ HF) by solve_notin. simpl.
  apply list_omap_ext. apply Forall2_same_length_lookup_2; [done|].
  intros i n n' Hn Hn'. simplify_eq.
  destruct (d !! n) as [e|] eqn:He.
  - destruct (Forall2_lookup_l _ _ _ _ _ HF He) as (e'&->&[(?&?&?&Ha&Hc) _]).
    simpl. by rewrite Ha, Hc.
  - destruct (d' !! n) as [e'|] eqn:He'; [|done].
    destruct (Forall2_lookup_r _ _ _ _ _ HF He') as (e&He2&_). congruence.
Qed.

Lemma subset_every (d : list element) s :
  (∀ v, v ∈ wanted_list d → is_Some v) →
  every (λ platform, negb (indexOf (js_split "," s) platform =? -1)%Z) (wanted_list d) = true
  ↔ wanted_set d ⊆ platform_set s.
Proof.
  intros Hw. rewrite every_true. unfold platform_set. split.
  - intros H t Ht. apply elem_of_wanted_set in Ht. apply H, indexOf_found in Ht.
    apply elem_of_list_to_set. apply list_elem_of_fmap in Ht as (x&?&?). by simplify_eq.
  - intros H v Hv. destruct (Hw v Hv) as [t ->]. apply indexOf_found.
    apply list_elem_of_fmap. exists t. split; [done|].
    apply (elem_of_list_to_set (C:=gset string)). apply H. by apply elem_of_wanted_set.
Qed.

Lemma rows_ok_lookup (d : list element) :
  rows_ok d = true ↔
  ∀ n e, d !! n = Some e → has_class "framework-row" e = true →
         is_Some (assoc "data-platforms" (el_attrs e)).
Proof.
  unfold rows_ok. rewrite <-Is_true_true, forallb_True, Forall_lookup.
  apply forall_proper; intros n. apply forall_proper; intros e.
  unfold row_ok. rewrite Is_true_true, orb_true_iff, negb_true_iff, bool_decide_eq_true.
  destruct (has_class "framework-row" e).
  - split; [intros H He _; by destruct (H He)|intros H He; right; by apply H].
  - split; [done|]. intros _ _. by left.
Qed.

(** ** A run with the filter enabled *)

Lemma frame_rel_update f ns (d : list element) :
  (∀ e, frame_rel e (f e)) → Forall2 frame_rel d (update_nodes f ns d).
Proof. apply (Forall2_update_nodes frame_rel). Qed.

Lemma enabled_run p :
  filter_enabled (document p) = Some true →
  (∀ v, v ∈ wanted_list (document p) → css_name (default "null" v) = true) →
  rows_ok (document p) = true →
  ∃ d3, Forall2 frame_rel (document p) d3 ∧
    updatePlatforms p =
    (Normal (),
     with_document (update_nodes (mark_element (wanted_list (document p)))
                      (nodes_where (λ _ e, has_class "framework-row" e) d3) d3) p).
Proof.
  intros Hf Hw Hrows.
  destruct (updatePlatforms_enabled p Hf) as (d1&d2&H1&H2&Hrun).
  assert (Forall2 frame_rel (document p) d2) as HF2.
  { etransitivity; [|subst d2; apply frame_rel_update, frame_rel_closed].
    subst d1. apply frame_rel_update, frame_rel_closed. }
  rewrite (wanted_list_related _ _ HF2) in Hrun.
  set (w := wanted_list (document p)) in *.
  rewrite bind_unfold, mark_required_eval in Hrun by done.
  simpl in Hrun.
  set (d3 := foldl require_step d2 w) in *.
  assert (Forall2 frame_rel d2 d3) as HF3.
  { pose proof (respects_mark_required frame_rel frame_rel_closed w (with_document d2 p)) as Hr.
    rewrite mark_required_eval in Hr by done. by destruct Hr as (_&_&_&Hr). }
  exists d3. split; [by etransitivity|].
  rewrite Hrun. unfold mark_rows. rewrite bind_unfold.
  erewrite jq_eval by reflexivity. unfold each. rewrite mark_loop_eval; [done|].
  intros n Hn. simpl in Hn. apply elem_of_nodes_where in Hn. unfold node_sat in Hn.
  simpl in Hn. destruct (d3 !! n) as [e3|] eqn:He3; [|done].
  assert (Forall2 frame_rel (document p) d3) as HF by by etransitivity.
  destruct (Forall2_lookup_r _ _ _ _ _ HF He3) as (e&He&[(_&_&_&Ha&_) Hcl]).
  exists e3. simpl. split; [done|]. rewrite Ha.
  apply (proj1 (rows_ok_lookup _) Hrows n e He).
  rewrite <-(Hcl "framework-row"); [done|solve_notin].
Qed.

Lemma enabled_row p n e s :
  filter_enabled (document p) = Some true →
  (∀ v, v ∈ wanted_list (document p) → css_name (default "null" v) = true) →
  rows_ok (document p) = true →
  document p !! n = Some e →
  has_class "framework-row" e = true →
  assoc "data-platforms" (el_attrs e) = Some s →
  ∃ e', document (updatePlatforms p).2 !! n = Some e' ∧
    has_class "available" e' =
      every (λ platform, negb (indexOf (js_split "," s) platform =? -1)%Z)
            (wanted_list (document p)) ∧
    has_class "not-available" e' = negb (has_class "available" e').
Proof.
  intros Hf Hw Hrows He Hrow Hs.
  destruct (enabled_run p Hf Hw Hrows) as (d3&HF&Hrun). rewrite Hrun. simpl.
  destruct (Forall2_lookup_l _ _ _ _ _ HF He) as (e3&He3&[(_&_&_&Ha&_) Hcl]).
  rewrite update_nodes_where, He3. simpl.
  rewrite (Hcl "framework-row") by solve_notin. rewrite Hrow.
  eexists. split; [done|]. unfold mark_element. rewrite Ha, Hs.
  destruct (every _ _).
  - rewrite !has_class_mark_available. simpl.
    by destruct (has_class "available" e3), (has_class "not-available" e3).
  - rewrite !has_class_mark_not_available. simpl.
    by destruct (has_class "available" e3), (has_class "not-available" e3).
Qed.

Lemma checkboxes_ok_names (d : list element) v :
  checkboxes_ok d = true → v ∈ wanted_list d → css_name (default "null" v) = true.
Proof. intros Hok Hv. by destruct (checkboxes_ok_wanted d v Hok Hv) as (t&->&?). Qed.

Lemma checkboxes_ok_strings (d : list element) v :
  checkboxes_ok d = true → v ∈ wanted_list d → is_Some v.
Proof. intros Hok Hv. destruct (checkboxes_ok_wanted d v Hok Hv) as (t&->&?). eauto. Qed.

(** A row of the document a run leaves was a row with a [data-platforms]
    attribute before. *)
Lemma row_before p n e' :
  rows_ok (document p) = true →
  document (updatePlatforms p).2 !! n = Some e' →
  has_class "framework-row" e' = true →
  ∃ e s, document p !! n = Some e ∧ has_class "framework-row" e = true ∧
         assoc "data-platforms" (el_attrs e) = Some s.
Proof.
  intros Hrows He' Hrow.
  destruct (respects_updatePlatforms frame_rel frame_rel_closed p) as (_&_&_&HF).
  destruct (Forall2_lookup_r _ _ _ _ _ HF He') as (e&He&[_ Hcl]).
  rewrite (Hcl "framework-row") in Hrow by solve_notin.
  destruct (proj1 (rows_ok_lookup _) Hrows n e He Hrow) as [s Hs]. eauto.
Qed.

(** C1. With the platform filter enabled, on well-formed markup,
    [updatePlatforms] returns normally and marks a row "available" iff the
    wanted-platform set W (the tags of the checked platform checkboxes) is a
    subset of the row's platform set R (its data-platforms split on
    commas), and "not-available" otherwise. *)
Theorem row_available_iff_subset (p : page) (n : nat) (e : element) (s : string) :
  filter_enabled (document p) = Some true →
  checkboxes_ok (document p) = true →
  rows_ok (document p) = true →
  document p !! n = Some e →
  has_class "framework-row" e = true →
  assoc "data-platforms" (el_attrs e) = Some s →
  (updatePlatforms p).1 = Normal () ∧
  ∃ e', document (updatePlatforms p).2 !! n = Some e' ∧
    (has_class "available" e' = true ↔ wanted_set (document p) ⊆ platform_set s) ∧
    (has_class "not-available" e' = true ↔ ¬ wanted_set (document p) ⊆ platform_set s).
Proof.
  intros Hf Hok Hrows He Hrow Hs.
  split.
  { destruct (enabled_run p Hf (λ v, checkboxes_ok_names _ v Hok) Hrows) as (?&_&->). done. }
  destruct (enabled_row p n e s Hf (λ v, checkboxes_ok_names _ v Hok) Hrows He Hrow Hs)
    as (e'&He'&Ha&Hna).
  exists e'. split; [done|].
  rewrite Hna, Ha, negb_true_iff, <-not_true_iff_false.
  by rewrite (subset_every _ s (λ v, checkboxes_ok_strings _ v Hok)).
Qed.

(** C2. With the platform filter enabled and no platform checkbox checked,
    the wanted-platform set is empty and [updatePlatforms] marks every row
    "available" (and not "not-available"), whatever its data-platforms
    contains. *)
Theorem no_platform_checked_all_available (p : page) :
  filter_enabled (document p) = Some true →
  rows_ok (document p) = true →
  no_platform_checked (document p) = true →
  wanted_set (document p) = ∅ ∧
  (updatePlatforms p).1 = Normal () ∧
  ∀ n e', document (updatePlatforms p).2 !! n = Some e' →
          has_class "framework-row" e' = true →
          has_class "available" e' = true ∧ has_class "not-available" e' = false.
Proof.
  intros Hf Hrows Hnone.
  assert (wanted_list (document p) = []) as Hw.
  { apply elem_of_nil_inv. intros v (n&e&He&Hpc&Hc&_)%elem_of_wanted_list.
    unfold no_platform_checked in Hnone.
    rewrite <-Is_true_true, forallb_True, Forall_lookup in Hnone.
    specialize (Hnone n e He). by rewrite Hpc, Hc in Hnone. }
  assert (∀ v, v ∈ wanted_list (document p) → css_name (default "null" v) = true) as Hcss.
  { intros v Hv. rewrite Hw in Hv. by apply elem_of_nil in Hv. }
  split; [|split].
  - apply set_eq. intros t. rewrite elem_of_wanted_set, Hw. set_solver.
  - by destruct (enabled_run p Hf Hcss Hrows) as (?&_&->).
  - intros n e' He' Hrow.
    destruct (row_before p n e' Hrows He' Hrow) as (e&s&He&Hrow0&Hs).
    destruct (enabled_row p n e s Hf Hcss Hrows He Hrow0 Hs) as (e''&He''&Ha&Hna).
    simplify_eq. rewrite Hw in Ha. rewrite Hna, Ha. done.
Qed.

(** C9. A row whose data-platforms attribute is the empty string has the
    one-element platform set containing the empty string, not the empty
    set; so with the filter enabled, on well-formed markup, the row is
    marked "not-available" as soon as a wanted tag other than the empty
    string is checked, and "available" when the wanted set is empty. *)
Theorem empty_data_platforms_row (p : page) (n : nat) (e : element) :
  filter_enabled (document p) = Some true →
  checkboxes_ok (document p) = true →
  rows_ok (document p) = true →
  document p !! n = Some e →
  has_class "framework-row" e = true →
  assoc "data-platforms" (el_attrs e) = Some "" →
  js_split "," "" = [""] ∧
  platform_set "" = {[ "" ]} ∧
  platform_set "" ≠ ∅ ∧
  ∃ e', document (updatePlatforms p).2 !! n = Some e' ∧
    ((∃ t, t ∈ wanted_set (document p) ∧ t ≠ "") →
     has_class "not-available" e' = true ∧ has_class "available" e' = false) ∧
    (wanted_set (document p) = ∅ →
     has_class "available" e' = true ∧ has_class "not-available" e' = false).
Proof.
  intros Hf Hok Hrows He Hrow Hs.
  assert (platform_set "" = {[ "" ]}) as Hset.
  { unfold platform_set. simpl. apply (right_id_L ∅ (∪)). }
  split; [done|]. split; [done|]. split.
  { rewrite Hset. intros H. apply (not_elem_of_empty (C:=gset string) "").
    rewrite <-H. by apply elem_of_singleton. }
  destruct (enabled_row p n e "" Hf (λ v, checkboxes_ok_names _ v Hok) Hrows He Hrow Hs)
    as (e'&He'&Ha&Hna).
  exists e'. split; [done|]. rewrite Hna.
  pose proof (subset_every (document p) "" (λ v, checkboxes_ok_strings _ v Hok)) as Hsub.
  rewrite <-Ha, Hset in Hsub. split.
  - intros (t&Ht&Hne).
    destruct (has_class "available" e'); [|done].
    apply (proj1 Hsub eq_refl), elem_of_singleton in Ht. done.
  - intros Hempty. rewrite Hempty in Hsub.
    rewrite (proj2 Hsub); [done|]. apply empty_subseteq.
Qed.

(** ** The "required" marking of the platform cells *)

Lemma platform_class_not_mark v :
  js_concat "framework-platform-" v ∉ ["available"; "not-available"].
Proof. unfold js_concat. solve_notin. Qed.

Lemma rows_closed_but_marks : rows_closed (same_classes_but ["available"; "not-available"]).
Proof.
  split; [apply _|..]; intros e.
  - unfold mark_available.
    etransitivity; [apply same_classes_remove|apply same_classes_add]; solve_in.
  - unfold mark_not_available.
    etransitivity; [apply same_classes_remove|apply same_classes_add]; solve_in.
Qed.

Lemma after_remove_required (d : list element) n e1 :
  update_nodes (remove_class "framework-platform-required")
    (nodes_where (λ _ e, has_class "framework-platform" e) d) d !! n = Some e1 →
  has_class "framework-platform" e1 = true →
  has_class "framework-platform-required" e1 = false.
Proof.
  rewrite update_nodes_where. destruct (d !! n) as [e|]; simpl; [|done].
  destruct (has_class "framework-platform" e) eqn:Hc; intros ? Hc1; simplify_eq.
  - rewrite has_class_remove_class. simpl. by rewrite andb_false_r.
  - congruence.
Qed.

(** What the loop of [mark_required] does to an element: only the
    "required" class may be added, and it is there at the end iff it was
    there before or the element has the class of one of the tags. *)
Lemma require_fold w (d : list element) n e :
  d !! n = Some e →
  ∃ e', foldl require_step d w !! n = Some e' ∧
    same_classes_but ["framework-platform-required"] e e' ∧
    (has_class "framework-platform-required" e' = true ↔
     has_class "framework-platform-required" e = true ∨
     ∃ v, v ∈ w ∧ has_class (js_concat "framework-platform-" v) e' = true).
Proof.
  revert d e. induction w as [|v w IH]; intros d e He.
  - exists e. split; [done|]. split; [done|]. split; [by left|].
    intros [?|(v&Hv&_)]; [done|]. by apply elem_of_nil in Hv.
  - cbn [foldl].
    set (c := js_concat "framework-platform-" v).
    assert (require_step d v !! n =
            Some (if has_class c e then add_class "framework-platform-required" e else e))
      as He1.
    { unfold require_step. simpl. by rewrite update_nodes_where, He. }
    destruct (IH _ _ He1) as (e'&He'&Hcl&Hreq). exists e'. split; [done|].
    assert (same_classes_but ["framework-platform-required"] e
              (if has_class c e then add_class "framework-platform-required" e else e))
      as Hcl1.
    { destruct (has_class c e); [|done]. apply same_classes_add. solve_in. }
    split; [by etransitivity|]. rewrite Hreq. split.
    + intros [H1|(v'&Hv'&H')].
      * destruct (has_class c e) eqn:Hc; [|by left].
        rewrite has_class_add_class in H1. apply orb_true_iff in H1 as [H1|_]; [by left|].
        right. exists v. split; [left|].
        destruct (decide (c = "framework-platform-required")) as [Heq|Hne].
        -- fold c. rewrite Heq. apply Hreq. left.
           rewrite has_class_add_class. by rewrite bool_decide_eq_true_2, orb_true_r.
        -- fold c. rewrite (Hcl c), (Hcl1 c), Hc; [done|..];
             by intros ->%list_elem_of_singleton.
      * right. exists v'. split; [by right|done].
    + intros [H0|(v'&[->|Hv']%elem_of_cons&H')].
      * left. destruct (has_class c e); [|done].
        rewrite has_class_add_class. by rewrite H0.
      * fold c in H'.
        destruct (decide (c = "framework-platform-required")) as [Heq|Hne].
        -- rewrite Heq in H'. by apply Hreq.
        -- rewrite (Hcl c) in H' by by intros ->%list_elem_of_singleton.
           destruct (has_class c e) eqn:Hc.
           ++ left. rewrite has_class_add_class.
              by rewrite bool_decide_eq_true_2, orb_true_r.
           ++ congruence.
      * right. by exists v'.
Qed.

Lemma same_classes_update marks f ns (d : list element) :
  (∀ e, same_classes_but marks e (f e)) →
  Forall2 (same_classes_but marks) d (update_nodes f ns d).
Proof. apply (Forall2_update_nodes (same_classes_but marks)). Qed.

(** C10. After a run of [updatePlatforms] on a page whose platform
    checkboxes are well formed, a .framework-platform cell carries the
    "framework-platform-required" class iff the platform filter is enabled
    and the cell has the class of a tag of the wanted-platform set.  In
    particular a run with the filter disabled leaves no cell "required".
    This holds however the run completes (a row without data-platforms makes
    it throw after the cells are marked). *)
Theorem required_iff_wanted (p : page) (b : bool) (n : nat) (e' : element) :
  filter_enabled (document p) = Some b →
  checkboxes_ok (document p) = true →
  document (updatePlatforms p).2 !! n = Some e' →
  has_class "framework-platform" e' = true →
  has_class "framework-platform-required" e' = true ↔
  b = true ∧ ∃ t, t ∈ wanted_set (document p) ∧
                  has_class ("framework-platform-" +:+ t) e' = true.
Proof.
  intros Hf Hok He' Hcell. destruct b.
  - destruct (updatePlatforms_enabled p Hf) as (d1&d2&H1&H2&Hrun).
    assert (Forall2 frame_rel (document p) d2) as HF2.
    { etransitivity; [|subst d2; apply frame_rel_update, frame_rel_closed].
      subst d1. apply frame_rel_update, frame_rel_closed. }
    rewrite (wanted_list_related _ _ HF2) in Hrun.
    set (w := wanted_list (document p)) in *.
    rewrite bind_unfold, mark_required_eval in Hrun
      by (intros v Hv; by apply (checkboxes_ok_names (document p))).
    simpl in Hrun. set (d3 := foldl require_step d2 w) in *.
    set (p3 := with_document d3 (with_document d2 p)) in *.
    destruct (respects_mark_rows _ rows_closed_but_marks w p3) as (_&_&_&HF).
    rewrite <-Hrun in HF. simpl in HF.
    destruct (Forall2_lookup_r _ _ _ _ _ HF He') as (e3&He3&H3).
    assert (is_Some (d2 !! n)) as [e2 He2].
    { apply lookup_lt_is_Some. apply lookup_lt_Some in He3.
      unfold d3 in He3. clear -He3. revert d2 He3.
      induction w as [|v w IH]; intros d2; [done|]. cbn [foldl]. intros H%IH.
      unfold require_step in H. by rewrite length_update_nodes in H. }
    destruct (require_fold w d2 n e2 He2) as (e3'&He3'&Hcl&Hreq).
    fold d3 in He3'. assert (e3' = e3) as -> by congruence.
    assert (Forall2 (same_classes_but []) d1 d2) as H12.
    { subst d2. by apply same_classes_update. }
    destruct (Forall2_lookup_r _ _ _ _ _ H12 He2) as (e1&He1&H1c).
    assert (has_class "framework-platform-required" e2 = false) as Hreq2.
    { rewrite (H1c _) by apply not_elem_of_nil.
      apply (after_remove_required (document p) n e1); [by rewrite <-H1|].
      rewrite <-(H1c _), <-(Hcl _), <-(H3 _), Hcell; [done|solve_notin..]. }
    rewrite (H3 _) by solve_notin. rewrite Hreq, Hreq2. split.
    + intros [?|(v&Hv&Hc)]; [done|]. split; [done|].
      destruct (checkboxes_ok_wanted _ _ Hok Hv) as (t&->&_). exists t.
      split; [by apply elem_of_wanted_set|].
      by rewrite (H3 _) by apply (platform_class_not_mark (Some t)).
    + intros (_&t&Ht&Hc). right. exists (Some t).
      split; [by apply elem_of_wanted_set|].
      by rewrite (H3 _) in Hc by apply (platform_class_not_mark (Some t)).
  - destruct (updatePlatforms_disabled p Hf) as (d1&d2&d3&d4&H1&H2&H3&H4&Hrun).
    rewrite Hrun in He'. simpl in He'. split; [|by intros [? _]].
    intros Hreq. exfalso.
    assert (Forall2 (same_classes_but ["available"; "not-available"]) d1 d4) as HF.
    { transitivity d2; [|transitivity d3].
      - subst d2. by apply same_classes_update.
      - subst d3. apply same_classes_update. intros. apply same_classes_remove. solve_in.
      - subst d4. apply same_classes_update. intros. apply same_classes_remove. solve_in. }
    destruct (Forall2_lookup_r _ _ _ _ _ HF He') as (e1&He1&H1c).
    rewrite (H1c _) in Hreq by solve_notin.
    rewrite (H1c _) in Hcell by solve_notin. subst d1.
    by rewrite (after_remove_required _ _ _ He1 Hcell) in Hreq.
Qed.

(** A run changes nothing in an element but its display state and the
    three classes the script toggles; so the class of a platform tag other
    than "required" is on a cell after the run iff it was there before. *)
Lemma updatePlatforms_frame p n e :
  document p !! n = Some e →
  ∃ e', document (updatePlatforms p).2 !! n = Some e' ∧ frame_rel e e'.
Proof.
  intros He.
  destruct (respects_updatePlatforms frame_rel frame_rel_closed p) as (_&_&_&HF).
  by apply (Forall2_lookup_l _ _ _ _ _ HF He).
Qed.

Lemma platform_class_unchanged p n e e' t :
  document p !! n = Some e →
  document (updatePlatforms p).2 !! n = Some e' →
  t ≠ "required" →
  has_class ("framework-platform-" +:+ t) e' = has_class ("framework-platform-" +:+ t) e.
Proof.
  intros He He' Ht. destruct (updatePlatforms_frame p n e He) as (e''&He''&_&Hcl).
  assert (e'' = e') as -> by congruence. apply Hcl.
  intros [H|H]%elem_of_cons.
  - apply Ht. simpl in H. by injection H.
  - revert H. solve_notin.
Qed.

(** ** The tooltip code leaves the document and the listeners alone *)

#[global] Instance tooltip_only_PreOrder : PreOrder tooltip_only.
Proof.
  split; [done|]. intros p1 p2 p3 [? ?] [? ?]. split; congruence.
Qed.

Lemma respects_the_noteTip R `{!PreOrder R} : respects R the_noteTip.
Proof. apply (respects_pure R). intros p. unfold the_noteTip. by destruct (g_noteTip p). Qed.

Lemma respects_get_described R `{!PreOrder R} : respects R get_described.
Proof. by apply (respects_pure R). Qed.

Lemma respects_get_listeners R `{!PreOrder R} : respects R get_listeners.
Proof. by apply (respects_pure R). Qed.

Lemma tooltip_only_NoteTip_hide : respects tooltip_only NoteTip_hide.
Proof.
  unfold NoteTip_hide. apply (respects_bind tooltip_only); [apply respects_the_noteTip, _|].
  intros t. apply (respects_bind tooltip_only); [done|]. intros _.
  by destruct (tip_onHide t) as [[]|].
Qed.

Lemma tooltip_only_noteClick this : respects tooltip_only (noteClick this).
Proof.
  unfold noteClick. apply (respects_bind tooltip_only); [apply respects_get_described, _|].
  intros r. apply (respects_bind tooltip_only); [|intros; apply (respects_ret tooltip_only)].
  destruct (ref_is r this); [apply tooltip_only_NoteTip_hide|].
  apply (respects_bind tooltip_only); [done|]. intros _.
  apply (respects_bind tooltip_only); [apply (respects_getAttribute tooltip_only)|].
  intros text. apply (respects_bind tooltip_only).
  - unfold NoteTip_setText.
    apply (respects_bind tooltip_only); [apply respects_the_noteTip, _|]. done.
  - intros _. unfold NoteTip_show.
    apply (respects_bind tooltip_only); [apply respects_the_noteTip, _|]. done.
Qed.

(** ** Events change the document within the relations of the script *)

Section dispatch_respects.
Context (E : element → element → Prop) (HE : script_closed E).
Context (Hchecked : ∀ b e, E e (set_checked b e)).

#[local] Instance dispatch_PreOrder : PreOrder E := closed_pre E (closed_rows E HE).

Lemma tooltip_only_doc_rel p p' : tooltip_only p p' → doc_rel E p p'.
Proof. unfold doc_rel. intros [-> _]. reflexivity. Qed.

Lemma doc_rel_activate target : respects (doc_rel E) (activate target).
Proof.
  intros p. unfold activate. rewrite bind_unfold. simpl.
  destruct (document p !! target) as [e|]; [|reflexivity].
  destruct (is_checkbox e); [|reflexivity].
  unfold doc_rel. simpl. by apply (Forall2_alter_within E).
Qed.

Lemma doc_rel_run_handler h this : respects (doc_rel E) (run_handler h this).
Proof.
  destruct h; simpl.
  - apply (respects_bind (doc_rel E)); [|intros; apply (respects_ret (doc_rel E))].
    eapply respects_weaken; [apply (dom_rel_doc_rel E)|].
    by apply respects_updateMaintainers.
  - apply (respects_bind (doc_rel E)); [|intros; apply (respects_ret (doc_rel E))].
    eapply respects_weaken; [apply (dom_rel_doc_rel E)|].
    by apply respects_updatePlatforms.
  - eapply respects_weaken; [apply tooltip_only_doc_rel|].
    apply tooltip_only_noteClick.
Qed.

Lemma doc_rel_run_listeners l target : respects (doc_rel E) (run_listeners l target).
Proof.
  induction l as [|[n h] l IH]; simpl.
  - apply (respects_ret (doc_rel E)).
  - apply (respects_bind (doc_rel E)); [|by intros].
    case_bool_decide; [|apply (respects_ret (doc_rel E))].
    apply (respects_bind (doc_rel E)); [apply doc_rel_run_handler|].
    intros. apply (respects_ret (doc_rel E)).
Qed.

Lemma doc_rel_dispatch ev : respects (doc_rel E) (dispatch ev).
Proof.
  destruct ev as [target|]; simpl.
  - apply (respects_bind (doc_rel E)); [apply doc_rel_activate|]. intros _.
    apply (respects_bind (doc_rel E)); [apply respects_get_listeners, _|].
    intros l. apply doc_rel_run_listeners.
  - eapply respects_weaken; [apply tooltip_only_doc_rel|].
    apply tooltip_only_NoteTip_hide.
Qed.

Lemma doc_rel_serve p evs : doc_rel E p (serve p evs).
Proof.
  revert p. induction evs as [|ev evs IH]; intros p; simpl; [reflexivity|].
  etransitivity; [|apply IH]. apply doc_rel_dispatch.
Qed.
End dispatch_respects.

(** ** The two row marks exclude each other *)

Lemma rows_exclusive_related (d d' : list element) :
  Forall2 excl_rel d d' → rows_exclusive d = true → rows_exclusive d' = true.
Proof.
  rewrite !rows_exclusive_lookup. intros HF H n e' He' Hrow.
  destruct (Forall2_lookup_r _ _ _ _ _ HF He') as (e&He&Hrow'&Hex).
  apply Hex, (H n e He). congruence.
Qed.

Lemma mark_element_exclusive w e :
  is_Some (assoc "data-platforms" (el_attrs e)) → exclusive (mark_element w e) = true.
Proof.
  intros [s Hs]. unfold mark_element, exclusive. rewrite Hs. destruct (every _ _).
  - rewrite !has_class_mark_available. simpl.
    by destruct (has_class "available" e), (has_class "not-available" e).
  - rewrite !has_class_mark_not_available. simpl.
    by destruct (has_class "available" e), (has_class "not-available" e).
Qed.

Lemma mark_rows_Normal w p p' :
  mark_rows w p = (Normal (), p') → rows_exclusive (document p') = true.
Proof.
  unfold mark_rows. rewrite bind_unfold. erewrite jq_eval by reflexivity.
  unfold each. intros Hrun. pose proof (mark_loop_Normal _ _ _ _ _ Hrun) as Hns.
  rewrite mark_loop_eval in Hrun by done. simplify_eq. simpl in *.
  apply rows_exclusive_lookup. intros n e'.
  rewrite update_nodes_where. destruct (document p !! n) as [e|] eqn:He; simpl; [|done].
  destruct (has_class "framework-row" e) eqn:Hrow; intros ? Hrow'; simplify_eq.
  - apply mark_element_exclusive.
    destruct (Hns n) as (e0&He0&Hs); [|by simplify_eq].
    apply elem_of_nodes_where. unfold node_sat. by rewrite He.
  - congruence.
Qed.

(** C4. The marks "available" and "not-available" exclude each other on
    every framework row: a run of [updatePlatforms] that returns leaves no
    row with both, whatever the page was before; and on a page where no row
    has both, no row has both after any sequence of events (clicks that
    run [updatePlatforms] or the other handlers, with the checkboxes
    changing in between), also when a run throws. *)
Theorem marks_mutually_exclusive :
  (∀ p p', updatePlatforms p = (Normal (), p') →
           rows_exclusive (document p') = true) ∧
  (∀ p evs, rows_exclusive (document p) = true →
            rows_exclusive (document (serve p evs)) = true).
Proof.
  split.
  - intros p p' Hrun.
    destruct (filter_enabled (document p)) as [[]|] eqn:Hf.
    + destruct (updatePlatforms_enabled p Hf) as (d1&d2&_&_&Hrun').
      rewrite Hrun', bind_unfold in Hrun.
      destruct (mark_required _ _) as [[[]|err] p3]; [|done].
      by apply mark_rows_Normal in Hrun.
    + apply rows_exclusive_lookup. intros n e He Hrow.
      replace p' with (updatePlatforms p).2 in He by by rewrite Hrun.
      destruct (disabled_rows_unmarked p n e Hf He Hrow) as [Ha Hna].
      unfold exclusive. by rewrite Ha.
    + unfold updatePlatforms in Hrun. rewrite bind_unfold, read_checkbox in Hrun.
      unfold filter_enabled in Hf. by rewrite Hf in Hrun.
  - intros p evs. apply rows_exclusive_related.
    by apply (doc_rel_serve excl_rel excl_rel_closed).
Qed.

(** ** The note tooltip *)

Lemma noteClick_same E p t :
  g_noteTip p = Some t → g_currentlyDescribedElement p = js_element E →
  noteClick E p =
  (Normal false,
   Page (document p) (Some (mkNoteTip (tip_text t) None (tip_onHide t)))
        (match tip_onHide t with
         | Some clear_described => js_null
         | None => js_element E
         end)
        (listeners p)).
Proof.
  destruct p as [d tip r l]. simpl. intros -> ->.
  unfold noteClick. rewrite bind_unfold. simpl.
  rewrite bool_decide_eq_true_2 by done.
  by destruct t as [text anchor [[]|]].
Qed.

Lemma noteClick_other E p t :
  g_noteTip p = Some t → ref_is (g_currentlyDescribedElement p) E = false →
  noteClick E p =
  (Normal false,
   Page (document p)
        (Some (mkNoteTip (e ← document p !! E; assoc "data-note" (el_attrs e))
                         (Some E) (tip_onHide t)))
        (js_element E) (listeners p)).
Proof.
  destruct p as [d tip r l]. simpl. intros -> Hr.
  unfold noteClick. rewrite bind_unfold. simpl. rewrite Hr. reflexivity.
Qed.

Lemma NoteTip_hide_eval p t :
  g_noteTip p = Some t →
  NoteTip_hide p =
  (Normal (),
   Page (document p) (Some (mkNoteTip (tip_text t) None (tip_onHide t)))
        (match tip_onHide t with
         | Some clear_described => js_null
         | None => g_currentlyDescribedElement p
         end)
        (listeners p)).
Proof.
  destruct p as [d tip r l]. simpl. intros ->.
  by destruct t as [text anchor [[]|]].
Qed.

Lemma note_state_Some p s :
  note_state p = Some s →
  ∃ t, g_noteTip p = Some t ∧ tip_onHide t = Some clear_described ∧
    match s with
    | Shown E => tip_anchor t = Some E ∧ g_currentlyDescribedElement p = js_element E
    | Hidden => tip_anchor t = None ∧ ∀ E, g_currentlyDescribedElement p ≠ js_element E
    end.
Proof.
  unfold note_state. destruct (g_noteTip p) as [[text anchor [[]|]]|]; [|done..].
  intros H. eexists. split; [done|]. split; [done|]. simpl.
  destruct anchor as [E|], (g_currentlyDescribedElement p) as [| |E']; simplify_eq; try done.
  case_bool_decide; by simplify_eq.
Qed.

Lemma note_state_ref_is p s E :
  note_state p = Some s → s ≠ Shown E →
  ref_is (g_currentlyDescribedElement p) E = false.
Proof.
  intros Hs Hne. destruct (note_state_Some _ _ Hs) as (t&_&_&Hst).
  destruct s as [|E'].
  - destruct Hst as [_ Hd]. destruct (g_currentlyDescribedElement p) as [| |E'']; try done.
    by destruct (Hd E'').
  - destruct Hst as [_ ->]. simpl. apply bool_decide_eq_false. by intros ->.
Qed.

#[global] Instance keeps_note_state_PreOrder : PreOrder keeps_note_state.
Proof. split; [by intros p ?|]. intros p1 p2 p3 H12 H23 H. apply H23, H12, H. Qed.

Lemma keeps_note_state_noteClick E : respects keeps_note_state (noteClick E).
Proof.
  intros p [s Hs]. destruct (note_state_Some p s Hs) as (t&Ht&Hcb&Hst).
  destruct (ref_is (g_currentlyDescribedElement p) E) eqn:Hr.
  - destruct (g_currentlyDescribedElement p) as [| |E'] eqn:Hd; try done.
    simpl in Hr. apply bool_decide_eq_true in Hr as ->.
    rewrite (noteClick_same E p t Ht Hd). unfold note_state. simpl. by rewrite Hcb.
  - rewrite (noteClick_other E p t Ht Hr). unfold note_state. simpl. rewrite Hcb.
    by rewrite bool_decide_eq_true_2.
Qed.

Lemma keeps_note_state_hide : respects keeps_note_state NoteTip_hide.
Proof.
  intros p [s Hs]. destruct (note_state_Some p s Hs) as (t&Ht&Hcb&Hst).
  rewrite (NoteTip_hide_eval p t Ht). unfold note_state. simpl. by rewrite Hcb.
Qed.

Lemma dom_rel_keeps_note_state E p p' : dom_rel E p p' → keeps_note_state p p'.
Proof. intros (Ht&Hd&_&_). unfold keeps_note_state, note_state. by rewrite Ht, Hd. Qed.

Lemma keeps_note_state_activate target : respects keeps_note_state (activate target).
Proof.
  intros p. unfold activate. rewrite bind_unfold. simpl.
  destruct (document p !! target) as [e|]; [|by intros ?].
  destruct (is_checkbox e); intros H; exact H.
Qed.

Lemma keeps_note_state_dispatch ev : respects keeps_note_state (dispatch ev).
Proof.
  destruct ev as [target|]; simpl; [|apply keeps_note_state_hide].
  apply (respects_bind keeps_note_state); [apply keeps_note_state_activate|]. intros _.
  apply (respects_bind keeps_note_state); [apply respects_get_listeners, _|].
  intros l. induction l as [|[n h] l IH]; simpl.
  - apply (respects_ret keeps_note_state).
  - apply (respects_bind keeps_note_state); [|by intros].
    case_bool_decide; [|apply (respects_ret keeps_note_state)].
    apply (respects_bind keeps_note_state);
      [|intros; apply (respects_ret keeps_note_state)].
    destruct h; simpl.
    + apply (respects_bind keeps_note_state);
        [|intros; apply (respects_ret keeps_note_state)].
      eapply respects_weaken; [apply (dom_rel_keeps_note_state frame_rel)|].
      apply respects_updateMaintainers, frame_rel_closed.
    + apply (respects_bind keeps_note_state);
        [|intros; apply (respects_ret keeps_note_state)].
      eapply respects_weaken; [apply (dom_rel_keeps_note_state frame_rel)|].
      apply respects_updatePlatforms, frame_rel_closed.
    + apply keeps_note_state_noteClick.
Qed.

Lemma click_eval h ns p :
  click h ns p =
  (Normal (), Page (document p) (g_noteTip p) (g_currentlyDescribedElement p)
                   (listeners p ++ ((λ n, (n, h)) <$> ns))).
Proof. reflexivity. Qed.

(** [main] up to its last call: the handlers are bound and the tooltip is
    set up, hidden, with nothing described. *)
Lemma main_eval d :
  main (loaded d) =
  updateMaintainers
    (Page d (Some (mkNoteTip None None (Some clear_described))) js_undefined
          (bound_handlers d)).
Proof.
  unfold main.
  do 3 (rewrite bind_unfold, (bind_unfold (jq _)); erewrite jq_eval by reflexivity;
        rewrite click_eval; cbv beta iota).
  rewrite bind_unfold. unfold initNoteTip.
  rewrite bind_unfold.
  change (set_noteTip new_NoteTip ?q) with
    (Normal (), Page (document q) (Some new_NoteTip) (g_currentlyDescribedElement q)
                     (listeners q)).
  cbv beta iota. rewrite bind_unfold.
  cbn [the_noteTip g_noteTip]. rewrite bind_unfold.
  cbn [set_noteTip new_NoteTip tip_text tip_anchor document g_noteTip
       g_currentlyDescribedElement listeners loaded].
  rewrite (bind_unfold (jq _)). erewrite jq_eval by reflexivity.
  rewrite click_eval. cbv beta iota.
  cbn [document g_noteTip g_currentlyDescribedElement listeners].
  unfold bound_handlers, note_links. rewrite app_nil_l, <-!app_assoc. reflexivity.
Qed.

Lemma note_state_serve p evs :
  is_Some (note_state p) → is_Some (note_state (serve p evs)).
Proof.
  revert p. induction evs as [|ev evs IH]; intros p Hp; simpl; [done|].
  apply IH. by apply (keeps_note_state_dispatch ev p).
Qed.

Lemma note_state_ready d : is_Some (note_state (ready d)).
Proof.
  unfold ready, after. rewrite main_eval.
  eapply (dom_rel_keeps_note_state frame_rel).
  - apply respects_updateMaintainers, frame_rel_closed.
  - by eexists.
Qed.

(** C5. In every state the page reaches after [main], by any sequence of
    clicks and tooltip hide events, the tooltip exists and the currently
    described element is an element E (neither null nor the initial
    undefined, which is == null) iff the tooltip is shown, and then it is
    shown anchored to that same E. *)
Theorem described_iff_shown (d : list element) (evs : list event) :
  ∃ t, g_noteTip (serve (ready d) evs) = Some t ∧
    (∀ E, g_currentlyDescribedElement (serve (ready d) evs) = js_element E ↔
          tip_anchor t = Some E) ∧
    (g_currentlyDescribedElement (serve (ready d) evs) = js_null ∨
     g_currentlyDescribedElement (serve (ready d) evs) = js_undefined ↔
     tip_anchor t = None).
Proof.
  destruct (note_state_serve (ready d) evs (note_state_ready d)) as [s Hs].
  destruct (note_state_Some _ _ Hs) as (t&Ht&_&Hst).
  exists t. split; [done|]. destruct s as [|E0].
  - destruct Hst as [Ha Hd]. rewrite Ha. split.
    + intros E. split; [by intros ?%Hd|done].
    + split; [done|]. intros _.
      destruct (g_currentlyDescribedElement _) as [| |E]; [by right|by left|].
      by destruct (Hd E).
  - destruct Hst as [Ha Hd]. rewrite Ha, Hd. split.
    + intros E. split; intros; by simplify_eq.
    + split; [by intros [?|?]|done].
Qed.

(** C6. Clicking the note link E while the state is Shown(E) hides the
    tooltip: the handler calls [hide()], whose hide event runs [onHide],
    which sets the currently described element to null; the state is
    Hidden. *)
Theorem reclick_hides (p : page) (E : nat) :
  note_state p = Some (Shown E) →
  ∃ p', noteClick E p = (Normal false, p') ∧
    note_state p' = Some Hidden ∧
    g_currentlyDescribedElement p' = js_null ∧
    tip_anchor <$> g_noteTip p' = Some None ∧
    document p' = document p.
Proof.
  intros Hs. destruct (note_state_Some _ _ Hs) as (t&Ht&Hcb&Ha&Hd).
  eexists. split; [by apply noteClick_same|].
  unfold note_state. simpl. by rewrite Hcb.
Qed.

(** C7. Clicking the note link E while the state is Hidden or Shown(E')
    for another element E' shows the tooltip for E: its text is E's
    data-note attribute (null when E has none), it is shown anchored to E,
    and E is the currently described element; the state is Shown(E). *)
Theorem click_shows (p : page) (E : nat) (s : tip_state) :
  note_state p = Some s →
  s ≠ Shown E →
  ∃ p' t', noteClick E p = (Normal false, p') ∧
    g_noteTip p' = Some t' ∧
    tip_text t' = (e ← document p !! E; assoc "data-note" (el_attrs e)) ∧
    tip_anchor t' = Some E ∧
    g_currentlyDescribedElement p' = js_element E ∧
    note_state p' = Some (Shown E) ∧
    document p' = document p.
Proof.
  intros Hs Hne. destruct (note_state_Some _ _ Hs) as (t&Ht&Hcb&Hst).
  pose proof (note_state_ref_is p s E Hs Hne) as Hr.
  do 2 eexists. split; [by apply noteClick_other|]. simpl.
  repeat split. unfold note_state. simpl. rewrite Hcb.
  by rewrite bool_decide_eq_true_2.
Qed.

(** ** The maintainer column *)

Lemma updateMaintainers_eval p b :
  maintainers_wanted (document p) = Some b →
  updateMaintainers p =
  (Normal (),
   with_document
     (update_nodes (set_shown b)
        (nodes_where (λ _ e, has_class "framework-maintainer-column" e) (document p))
        (document p)) p).
Proof.
  intros Hb. unfold updateMaintainers.
  assert (∀ A (k : bool → JS A),
    (checkbox ← getElementById "showMaintainers"; c ← prop_checked checkbox; k c) p =
    ((getElementById "showMaintainers" ≫= prop_checked) ≫= k) p) as ->.
  { intros A k. rewrite !bind_unfold. by destruct (getElementById _ p) as [[?|?] ?]. }
  rewrite bind_unfold, read_checkbox. unfold maintainers_wanted in Hb. rewrite Hb.
  destruct b; rewrite bind_unfold, (bind_unfold (jq _)); erewrite jq_eval by reflexivity.
  - unfold show. by rewrite jq_update_eval.
  - unfold hide. by rewrite jq_update_eval.
Qed.

Lemma maintainers_synced p b :
  maintainers_wanted (document p) = Some b →
  (updateMaintainers p).1 = Normal () ∧
  maintainers_wanted (document (updateMaintainers p).2) = Some b ∧
  columns_shown b (document (updateMaintainers p).2) = true.
Proof.
  intros Hb. rewrite (updateMaintainers_eval p b Hb). simpl.
  split; [done|]. split.
  - assert (Forall2 same_static (document p)
              (update_nodes (set_shown b)
                 (nodes_where (λ _ e, has_class "framework-maintainer-column" e) (document p))
                 (document p))) as HF by by apply same_static_update.
    unfold maintainers_wanted in *. rewrite (find_id_related _ _ _ HF).
    destruct (find_id _ _) as [n|]; simpl in *; [|done].
    destruct (document p !! n) as [e|] eqn:He; [|done].
    destruct (Forall2_lookup_l _ _ _ _ _ HF He) as (e'&->&(_&_&_&_&Hc)).
    simpl in *. by rewrite Hc.
  - unfold columns_shown. rewrite <-Is_true_true, forallb_True, Forall_lookup.
    intros n e'. rewrite update_nodes_where.
    destruct (document p !! n) as [e|]; simpl; [|done].
    destruct (has_class "framework-maintainer-column" e) eqn:Hc; intros; simplify_eq.
    + apply Is_true_true. change (has_class _ (set_shown b e)) with
        (has_class "framework-maintainer-column" e). rewrite Hc. simpl.
      by apply bool_decide_eq_true.
    + apply Is_true_true. by rewrite Hc.
Qed.

(** C8. Whatever the state of the showMaintainers checkbox,
    [updateMaintainers] leaves every maintainer-column element visible iff
    the checkbox is checked; and this holds on the page as [main] leaves it
    at page-ready, before any click, since [main] ends with a call of
    [updateMaintainers]. *)
Theorem maintainers_follow_checkbox :
  (∀ p b, maintainers_wanted (document p) = Some b →
     (updateMaintainers p).1 = Normal () ∧
     maintainers_wanted (document (updateMaintainers p).2) = Some b ∧
     columns_shown b (document (updateMaintainers p).2) = true) ∧
  (∀ d b, maintainers_wanted d = Some b →
     (main (loaded d)).1 = Normal () ∧
     maintainers_wanted (document (ready d)) = Some b ∧
     columns_shown b (document (ready d)) = true).
Proof.
  split; [apply maintainers_synced|].
  intros d b Hb. unfold ready, after. rewrite main_eval.
  by apply maintainers_synced.
Qed.

(** ** A click on a note link runs the note handler *)

#[global] Instance same_listeners_PreOrder : PreOrder same_listeners.
Proof. split; [done|]. intros p1 p2 p3. unfold same_listeners. congruence. Qed.

#[global] Instance same_tag_PreOrder : PreOrder same_tag.
Proof. split; [done|]. intros e1 e2 e3. unfold same_tag. congruence. Qed.

Lemma same_tag_closed : script_closed same_tag.
Proof. split; [split; [apply _|..]|..]; done. Qed.

Lemma same_listeners_dispatch ev : respects same_listeners (dispatch ev).
Proof.
  assert (∀ p p', tooltip_only p p' → same_listeners p p') as Htip by by intros ?? [_ ?].
  assert (∀ p p', dom_rel frame_rel p p' → same_listeners p p') as Hdom
    by by intros ?? (_&_&?&_).
  destruct ev as [target|]; simpl.
  - apply (respects_bind same_listeners).
    { intros p. unfold activate. rewrite bind_unfold. simpl.
      destruct (document p !! target) as [e|]; [|done]. by destruct (is_checkbox e). }
    intros _. apply (respects_bind same_listeners); [apply respects_get_listeners, _|].
    intros l. induction l as [|[n h] l IH]; simpl.
    + apply (respects_ret same_listeners).
    + apply (respects_bind same_listeners); [|by intros].
      case_bool_decide; [|apply (respects_ret same_listeners)].
      apply (respects_bind same_listeners);
        [|intros; apply (respects_ret same_listeners)].
      destruct h; simpl.
      * apply (respects_bind same_listeners);
          [|intros; apply (respects_ret same_listeners)].
        eapply respects_weaken; [apply Hdom|].
        apply respects_updateMaintainers, frame_rel_closed.
      * apply (respects_bind same_listeners);
          [|intros; apply (respects_ret same_listeners)].
        eapply respects_weaken; [apply Hdom|].
        apply respects_updatePlatforms, frame_rel_closed.
      * eapply respects_weaken; [apply Htip|]. apply tooltip_only_noteClick.
  - eapply respects_weaken; [apply Htip|]. apply tooltip_only_NoteTip_hide.
Qed.

Lemma listeners_serve d evs : listeners (serve (ready d) evs) = bound_handlers d.
Proof.
  transitivity (listeners (ready d)).
  - generalize (ready d) as p. induction evs as [|ev evs IH]; intros p; simpl; [done|].
    rewrite IH. apply same_listeners_dispatch.
  - unfold ready, after. rewrite main_eval.
    by destruct (respects_updateMaintainers _ frame_rel_closed
      (Page d (Some (mkNoteTip None None (Some clear_described))) js_undefined
            (bound_handlers d))) as (_&_&->&_).
Qed.

Lemma tags_serve d evs : Forall2 same_tag d (document (serve (ready d) evs)).
Proof.
  transitivity (document (ready d)).
  - unfold ready, after. rewrite main_eval.
    by destruct (respects_updateMaintainers _ same_tag_closed
      (Page d (Some (mkNoteTip None None (Some clear_described))) js_undefined
            (bound_handlers d))) as (_&_&_&?).
  - by apply (doc_rel_serve same_tag same_tag_closed).
Qed.

Lemma run_listeners_app l1 l2 target p :
  run_listeners (l1 ++ l2) target p =
  (run_listeners l1 target;; run_listeners l2 target) p.
Proof.
  revert p. induction l1 as [|[n h] l1 IH]; intros p; [done|].
  cbn [app run_listeners]. rewrite !bind_unfold.
  destruct (bool_decide (n = target)).
  - destruct ((run_handler h target;; mret ()) p) as [[[]|err] p']; [|done].
    by rewrite IH, bind_unfold.
  - simpl. by rewrite IH, bind_unfold.
Qed.

Lemma run_listeners_skip h ns target p :
  target ∉ ns → run_listeners ((λ n, (n, h)) <$> ns) target p = (Normal (), p).
Proof.
  induction ns as [|n ns IH]; intros Hn; [done|].
  apply not_elem_of_cons in Hn as [Hne Hn].
  cbn [fmap list_fmap run_listeners]. rewrite bind_unfold.
  rewrite bool_decide_eq_false_2 by done. simpl. by apply IH.
Qed.

Lemma run_listeners_note ns E p :
  NoDup ns → E ∈ ns →
  (run_listeners ((λ n, (n, h_noteClick)) <$> ns) E p).2 = (noteClick E p).2.
Proof.
  induction ns as [|n ns IH]; intros Hnd HE; [by apply elem_of_nil in HE|].
  apply NoDup_cons in Hnd as [Hn Hnd].
  cbn [fmap list_fmap run_listeners]. rewrite bind_unfold.
  apply elem_of_cons in HE as [<-|HE].
  - rewrite bool_decide_eq_true_2 by done. rewrite bind_unfold. simpl.
    destruct (noteClick E p) as [[b|err] p']; simpl; [|done].
    by rewrite run_listeners_skip.
  - rewrite bool_decide_eq_false_2 by (intros ->; done). simpl. by apply IH.
Qed.

(** On the ready page and the pages it becomes, a click on a note link that
    is not one of the controls changes the page as [noteClick] does. *)
Lemma click_on_note_link d evs E :
  E ∈ note_links d → E ∉ controls d →
  after (dispatch (UserClick E)) (serve (ready d) evs) =
  (noteClick E (serve (ready d) evs)).2.
Proof.
  intros HE Hc. set (p := serve (ready d) evs).
  assert (activate E p = (Normal (), p)) as Hact.
  { unfold activate. rewrite bind_unfold. simpl.
    destruct (document p !! E) as [e'|] eqn:He'; [|done].
    destruct (Forall2_lookup_r _ _ _ _ _ (tags_serve d evs) He') as (e&He&Htag).
    unfold note_links in HE. simpl in HE. apply elem_of_nodes_where in HE.
    unfold node_sat in HE. rewrite He in HE.
    apply andb_true_iff in HE as [Ha _]. apply String.eqb_eq in Ha.
    unfold is_checkbox. rewrite Htag, Ha. done. }
  unfold after, dispatch. rewrite bind_unfold, Hact, bind_unfold. simpl.
  fold p. unfold p at 1. rewrite listeners_serve. fold p.
  unfold controls in Hc. rewrite !not_elem_of_app in Hc. destruct Hc as (H1&H2&H3).
  unfold bound_handlers.
  rewrite run_listeners_app, bind_unfold, run_listeners_skip by done.
  rewrite run_listeners_app, bind_unfold, run_listeners_skip by done.
  rewrite run_listeners_app, bind_unfold, run_listeners_skip by done.
  apply run_listeners_note; [|done]. apply NoDup_nodes_where.
Qed.

Lemma serve_snoc p evs ev : serve p (evs ++ [ev]) = after (dispatch ev) (serve p evs).
Proof. unfold serve. by rewrite foldl_app. Qed.

(** The two transitions of the note tooltip, on the page: a further click
    on the described note link hides the tooltip, a click on another note
    link shows the tooltip for it. *)
Lemma reclick_on_page d evs E :
  E ∈ note_links d → E ∉ controls d →
  note_state (serve (ready d) evs) = Some (Shown E) →
  note_state (serve (ready d) (evs ++ [UserClick E])) = Some Hidden.
Proof.
  intros HE Hc Hs. rewrite serve_snoc, click_on_note_link by done.
  destruct (note_state_Some _ _ Hs) as (t&Ht&Hcb&Ha&Hd).
  rewrite (noteClick_same E _ t Ht Hd). unfold note_state. simpl. by rewrite Hcb.
Qed.

Lemma click_on_page d evs E s :
  E ∈ note_links d → E ∉ controls d →
  note_state (serve (ready d) evs) = Some s → s ≠ Shown E →
  note_state (serve (ready d) (evs ++ [UserClick E])) = Some (Shown E).
Proof.
  intros HE Hc Hs Hne. rewrite serve_snoc, click_on_note_link by done.
  destruct (note_state_Some _ _ Hs) as (t&Ht&Hcb&Hst).
  rewrite (noteClick_other E _ t Ht) by by eapply note_state_ref_is.
  unfold note_state. simpl. rewrite Hcb. by rewrite bool_decide_eq_true_2.
Qed.

(** * Further properties of the script *)

(** ** Errors at the checkboxes *)

Lemma filter_enabled_None (d : list element) :
  filter_enabled d = None ↔ find_id "platform-filter" d = None.
Proof.
  unfold filter_enabled. destruct (find_id _ d) as [n|] eqn:Hn; simpl; [|done].
  destruct (find_id_lookup _ _ _ Hn) as (e&->&_). done.
Qed.

(** X1. Without an element of id platform-filter, [updatePlatforms] throws
    a TypeError at its first statement and leaves the page as it was: not
    even the "required" marks are cleared. *)
Theorem updatePlatforms_without_checkbox (p : page) :
  find_id "platform-filter" (document p) = None →
  updatePlatforms p = (Throw TypeError, p).
Proof.
  intros Hf. unfold updatePlatforms. rewrite bind_unfold, read_checkbox.
  by rewrite Hf.
Qed.

Lemma updateMaintainers_throw p :
  find_id "showMaintainers" (document p) = None →
  updateMaintainers p = (Throw TypeError, p).
Proof.
  intros Hf. unfold updateMaintainers, getElementById. rewrite !bind_unfold. simpl.
  by rewrite Hf.
Qed.

Lemma maintainers_wanted_None (d : list element) :
  maintainers_wanted d = None ↔ find_id "showMaintainers" d = None.
Proof.
  unfold maintainers_wanted. destruct (find_id _ d) as [n|] eqn:Hn; simpl; [|done].
  destruct (find_id_lookup _ _ _ Hn) as (e&->&_). done.
Qed.

(** X2. Without an element of id showMaintainers, [main] throws a
    TypeError in its last call only: the handlers are bound, the tooltip is
    set up and hidden, and the document is the markup's. *)
Theorem main_without_checkbox (d : list element) :
  find_id "showMaintainers" d = None →
  main (loaded d) =
    (Throw TypeError,
     Page d (Some (mkNoteTip None None (Some clear_described))) js_undefined
          (bound_handlers d)) ∧
  note_state (ready d) = Some Hidden.
Proof.
  intros Hf. assert (main (loaded d) =
    (Throw TypeError,
     Page d (Some (mkNoteTip None None (Some clear_described))) js_undefined
          (bound_handlers d))) as Hmain.
  { rewrite main_eval. by apply updateMaintainers_throw. }
  split; [done|]. unfold ready, after. by rewrite Hmain.
Qed.

(** ** What [updateMaintainers] and [main] change *)

Lemma updateMaintainers_document p :
  document (updateMaintainers p).2 =
  match maintainers_wanted (document p) with
  | Some b =>
      update_nodes (set_shown b)
        (nodes_where (λ _ e, has_class "framework-maintainer-column" e) (document p))
        (document p)
  | None => document p
  end.
Proof.
  destruct (maintainers_wanted (document p)) as [b|] eqn:Hb.
  - by rewrite (updateMaintainers_eval p b Hb).
  - apply maintainers_wanted_None in Hb. by rewrite updateMaintainers_throw.
Qed.

Lemma updateMaintainers_element p n e :
  document p !! n = Some e →
  ∃ e', document (updateMaintainers p).2 !! n = Some e' ∧
    (e' = e ∨ has_class "framework-maintainer-column" e = true ∧
              ∃ b, maintainers_wanted (document p) = Some b ∧ e' = set_shown b e).
Proof.
  intros He. rewrite updateMaintainers_document.
  destruct (maintainers_wanted (document p)) as [b|]; [|eauto].
  rewrite update_nodes_where, He. simpl.
  destruct (has_class "framework-maintainer-column" e); eauto 10.
Qed.

(** X3. [updateMaintainers], however it completes, changes nothing but
    the display state of the maintainer-column elements, which it sets to
    the state of the checkbox: every other element, the globals and the
    bound handlers are as before. *)
Theorem updateMaintainers_changes_only (p : page) (n : nat) (e : element) :
  document p !! n = Some e →
  g_noteTip (updateMaintainers p).2 = g_noteTip p ∧
  g_currentlyDescribedElement (updateMaintainers p).2 = g_currentlyDescribedElement p ∧
  listeners (updateMaintainers p).2 = listeners p ∧
  ∃ e', document (updateMaintainers p).2 !! n = Some e' ∧
    (e' = e ∨ has_class "framework-maintainer-column" e = true ∧
              ∃ b, maintainers_wanted (document p) = Some b ∧ e' = set_shown b e).
Proof.
  intros He.
  destruct (respects_updateMaintainers frame_rel frame_rel_closed p) as (Ht&Hd&Hl&_).
  repeat (split; [done|]). by apply updateMaintainers_element.
Qed.

(** X4. [main] does no platform filtering: on the ready page every
    element has the classes, attributes and checked state of the markup
    (only the display state of a maintainer-column element may differ), the
    handlers bound are those of the three controls and of the note links,
    and the tooltip is hidden with nothing described. *)
Theorem ready_page (d : list element) :
  listeners (ready d) = bound_handlers d ∧
  note_state (ready d) = Some Hidden ∧
  ∀ n e, d !! n = Some e →
    ∃ e', document (ready d) !! n = Some e' ∧
      el_classes e' = el_classes e ∧ el_attrs e' = el_attrs e ∧
      el_checked e' = el_checked e ∧
      (has_class "framework-maintainer-column" e = false → e' = e).
Proof.
  unfold ready, after. rewrite main_eval.
  set (p0 := Page d (Some (mkNoteTip None None (Some clear_described))) js_undefined
                  (bound_handlers d)).
  destruct (respects_updateMaintainers frame_rel frame_rel_closed p0) as (Ht&Hd&Hl&_).
  split; [done|]. split.
  { unfold note_state. by rewrite Ht, Hd. }
  intros n e He.
  destruct (updateMaintainers_element p0 n e He) as (e'&He'&[->|(Hc&b&_&->)]).
  - by exists e.
  - exists (set_shown b e). repeat split; [done|]. by rewrite Hc.
Qed.


(** ** The hide event *)

(** X6. The tooltip's hide event, in any state of the tooltip, leaves it
    hidden with the currently described element null; the document and the
    bound handlers are untouched. *)
Theorem hide_event_clears (p : page) (s : tip_state) :
  note_state p = Some s →
  ∃ p', dispatch TipHide p = (Normal (), p') ∧
    note_state p' = Some Hidden ∧
    g_currentlyDescribedElement p' = js_null ∧
    document p' = document p ∧ listeners p' = listeners p.
Proof.
  intros Hs. destruct (note_state_Some _ _ Hs) as (t&Ht&Hcb&_).
  eexists. split; [by apply NoteTip_hide_eval|].
  unfold note_state. simpl. by rewrite Hcb.
Qed.

(** ** What [updatePlatforms] changes *)

#[global] Instance same_shown_PreOrder : PreOrder same_shown.
Proof. split; [done|]. intros e1 e2 e3. unfold same_shown. congruence. Qed.

#[global] Instance same_attrs_PreOrder : PreOrder same_attrs.
Proof. split; [done|]. intros e1 e2 e3. unfold same_attrs. congruence. Qed.

Lemma same_shown_rows_closed : rows_closed same_shown.
Proof. split; [apply _|done..]. Qed.

Lemma same_attrs_closed : script_closed same_attrs.
Proof. split; [split; [apply _|..]|..]; done. Qed.

(** The loop of [mark_required] only adds the "required" class. *)
Lemma mark_required_within E `{!PreOrder E} w :
  (∀ e, E e (add_class "framework-platform-required" e)) →
  respects (dom_rel E) (mark_required w).
Proof.
  intros Hadd. unfold mark_required, for_each.
  apply (respects_loop (dom_rel E)). intros i v _.
  apply (respects_bind (dom_rel E)); [|intros; apply (respects_ret (dom_rel E))].
  apply (respects_bind (dom_rel E)); [apply (respects_jq (dom_rel E))|]. intros ns.
  by apply (respects_update E).
Qed.

Lemma tail_keeps_shown w p n e :
  document p !! n = Some e →
  ∃ e', document ((mark_required w;; mark_rows w) p).2 !! n = Some e' ∧
        el_shown e' = el_shown e.
Proof.
  intros He.
  assert (respects (dom_rel same_shown) (mark_required w;; mark_rows w)) as Hr.
  { apply (respects_bind (dom_rel same_shown)).
    - apply (mark_required_within same_shown). intros e0. reflexivity.
    - intros _. apply respects_mark_rows, same_shown_rows_closed. }
  destruct (Hr p) as (_&_&_&HF). by apply (Forall2_lookup_l _ _ _ _ _ HF He).
Qed.

(** X7. A run of [updatePlatforms], however it completes, leaves the
    globals and the bound handlers alone and changes nothing in an element
    but the three classes "framework-platform-required", "available" and
    "not-available", and the display state of the filter-options panel. *)
Theorem updatePlatforms_changes_only (p : page) (n : nat) (e : element) :
  document p !! n = Some e →
  g_noteTip (updatePlatforms p).2 = g_noteTip p ∧
  g_currentlyDescribedElement (updatePlatforms p).2 = g_currentlyDescribedElement p ∧
  listeners (updatePlatforms p).2 = listeners p ∧
  ∃ e', document (updatePlatforms p).2 !! n = Some e' ∧
    same_static e e' ∧
    same_classes_but ["framework-platform-required"; "available"; "not-available"] e e' ∧
    (find_id "platform-filter-group" (document p) ≠ Some n → el_shown e' = el_shown e).
Proof.
  intros He.
  destruct (respects_updatePlatforms frame_rel frame_rel_closed p) as (Ht&Hd&Hl&HF).
  repeat (split; [done|]).
  destruct (Forall2_lookup_l _ _ _ _ _ HF He) as (e'&He'&Hst&Hcl).
  exists e'. repeat (split; [done|]). intros Hpanel.
  set (d1 := update_nodes (remove_class "framework-platform-required")
           (nodes_where (λ _ e, has_class "framework-platform" e) (document p))
           (document p)).
  assert (find_id "platform-filter-group" d1 = find_id "platform-filter-group" (document p))
    as Hfind by by apply find_id_related, same_static_update.
  assert (∀ b, ∃ e2,
    update_nodes (set_shown b) (option_list (find_id "platform-filter-group" d1)) d1 !! n
      = Some e2 ∧ el_shown e2 = el_shown e) as Hd2.
  { intros b. rewrite Hfind.
    assert (d1 !! n = Some (if has_class "framework-platform" e
                            then remove_class "framework-platform-required" e else e))
      as He1 by (unfold d1; by rewrite update_nodes_where, He).
    eexists. split.
    - rewrite update_nodes_notin; [done|].
      destruct (find_id _ (document p)) as [m|]; simpl; [|apply not_elem_of_nil].
      intros ->%list_elem_of_singleton. done.
    - by destruct (has_class "framework-platform" e). }
  destruct (filter_enabled (document p)) as [[]|] eqn:Hf.
  - destruct (updatePlatforms_enabled p Hf) as (d1'&d2&->&->&Hrun). fold d1 in Hrun.
    destruct (Hd2 true) as (e2&He2&Hs2).
    destruct (tail_keeps_shown
                (wanted_list (update_nodes (set_shown true)
                   (option_list (find_id "platform-filter-group" d1)) d1))
                (with_document _ p) n e2 He2) as (e3&He3&Hs3).
    rewrite <-Hrun, He' in He3. injection He3 as <-. by rewrite Hs3.
  - destruct (updatePlatforms_disabled p Hf) as (d1'&d2&d3&d4&->&->&->&->&Hrun).
    fold d1 in Hrun. destruct (Hd2 false) as (e2&He2&Hs2).
    rewrite Hrun in He'. simpl in He'.
    rewrite update_nodes_where_of, update_nodes_where, He2 in He'.
    destruct (node_sat _ _ n); simpl in He';
      destruct (has_class "framework-row" e2); simplify_eq; done.
  - apply filter_enabled_None in Hf.
    assert (updatePlatforms p = (Throw TypeError, p)) as Hrun.
    { unfold updatePlatforms. rewrite bind_unfold, read_checkbox. by rewrite Hf. }
    rewrite Hrun in He'. simpl in He'. by simplify_eq.
Qed.

(** ** The text of the tooltip *)

#[global] Instance keeps_text_PreOrder d : PreOrder (keeps_text d).
Proof. split; [by intros p ?|]. intros p1 p2 p3 H12 H23 H. apply H23, H12, H. Qed.

Lemma keeps_text_dom_rel d p p' : dom_rel same_attrs p p' → keeps_text d p p'.
Proof.
  intros (Ht&_&_&HF) [Ha Htext]. split; [by etransitivity|].
  intros t E. rewrite Ht. apply Htext.
Qed.

Lemma keeps_text_noteClick d E : respects (keeps_text d) (noteClick E).
Proof.
  intros p [Ha Htext].
  destruct (g_noteTip p) as [t|] eqn:Ht.
  - destruct (ref_is (g_currentlyDescribedElement p) E) eqn:Hr.
    + destruct (g_currentlyDescribedElement p) as [| |E'] eqn:Hd; try done.
      simpl in Hr. apply bool_decide_eq_true in Hr as ->.
      rewrite (noteClick_same E p t Ht Hd). split; [done|].
      simpl. intros t' E' ? ?. by simplify_eq.
    + rewrite (noteClick_other E p t Ht Hr). split; [done|].
      simpl. intros t' E' ? HE. simplify_eq. simpl in HE.
      injection HE as <-. simpl. unfold note_of.
      destruct (document p !! E) as [e'|] eqn:He'.
      * destruct (Forall2_lookup_r _ _ _ _ _ Ha He') as (e&->&Hattr). simpl.
        by rewrite Hattr.
      * destruct (d !! E) as [e|] eqn:He; [|done].
        destruct (Forall2_lookup_l _ _ _ _ _ Ha He) as (e'&?&_). congruence.
  - split.
    + by destruct (tooltip_only_noteClick E p) as [-> _].
    + intros t E' Ht'. exfalso. revert Ht'.
      destruct p as [dp tip r l]. simpl in Ht. subst tip.
      unfold noteClick. rewrite bind_unfold. simpl. by destruct (ref_is r E).
Qed.

Lemma keeps_text_hide d : respects (keeps_text d) NoteTip_hide.
Proof.
  intros p [Ha Htext]. destruct (g_noteTip p) as [t|] eqn:Ht.
  - rewrite (NoteTip_hide_eval p t Ht). split; [done|].
    simpl. intros t' E' ? ?. by simplify_eq.
  - unfold NoteTip_hide, the_noteTip. rewrite bind_unfold, Ht. simpl. split; [done|].
    intros t E'. by rewrite Ht.
Qed.

Lemma keeps_text_activate d target : respects (keeps_text d) (activate target).
Proof.
  intros p [Ha Htext]. unfold activate. rewrite bind_unfold. simpl.
  destruct (document p !! target) as [e|]; [|done].
  destruct (is_checkbox e); [|done]. split; [|done]. simpl.
  etransitivity; [done|]. by apply (Forall2_alter_within same_attrs).
Qed.

Lemma keeps_text_dispatch d ev : respects (keeps_text d) (dispatch ev).
Proof.
  destruct ev as [target|]; simpl; [|apply keeps_text_hide].
  apply (respects_bind (keeps_text d)); [apply keeps_text_activate|]. intros _.
  apply (respects_bind (keeps_text d)); [apply respects_get_listeners, _|].
  intros l. induction l as [|[n h] l IH]; simpl.
  - apply (respects_ret (keeps_text d)).
  - apply (respects_bind (keeps_text d)); [|by intros].
    case_bool_decide; [|apply (respects_ret (keeps_text d))].
    apply (respects_bind (keeps_text d));
      [|intros; apply (respects_ret (keeps_text d))].
    destruct h; simpl.
    + apply (respects_bind (keeps_text d));
        [|intros; apply (respects_ret (keeps_text d))].
      eapply respects_weaken; [apply keeps_text_dom_rel|].
      apply respects_updateMaintainers, same_attrs_closed.
    + apply (respects_bind (keeps_text d));
        [|intros; apply (respects_ret (keeps_text d))].
      eapply respects_weaken; [apply keeps_text_dom_rel|].
      apply respects_updatePlatforms, same_attrs_closed.
    + apply keeps_text_noteClick.
Qed.

(** X8. In every state reached after [main], a tooltip that is shown
    anchored to an element has the data-note of that element (as the markup
    gives it; null when it has none) as its text. *)
Theorem shown_text_is_note (d : list element) (evs : list event) (t : NoteTip) (E : nat) :
  g_noteTip (serve (ready d) evs) = Some t →
  tip_anchor t = Some E →
  tip_text t = note_of d E.
Proof.
  assert (text_matches d (serve (ready d) evs)) as [_ H]; [|by apply H].
  assert (text_matches d (ready d)) as H0.
  { unfold ready, after. rewrite main_eval.
    eapply keeps_text_dom_rel.
    - apply respects_updateMaintainers, same_attrs_closed.
    - split; [simpl; reflexivity|]. simpl. intros t' E' ? ?. by simplify_eq. }
  revert H0. generalize (ready d) as p.
  induction evs as [|ev evs IH]; intros p Hp; simpl; [done|].
  apply IH. by apply (keeps_text_dispatch d ev p).
Qed.

(** ** The filter is monotone *)

(** X9. Wanting more platforms never makes a row available: for two
    well-formed pages with the filter enabled and rows of the same
    data-platforms, if the wanted set of the first is included in that of
    the second and the row is marked "available" on the second, it is
    marked "available" on the first. *)
Theorem more_wanted_fewer_available (p p' : page) (n n' : nat) (e e0 : element)
    (s : string) :
  filter_enabled (document p) = Some true →
  checkboxes_ok (document p) = true →
  rows_ok (document p) = true →
  filter_enabled (document p') = Some true →
  checkboxes_ok (document p') = true →
  rows_ok (document p') = true →
  document p !! n = Some e → has_class "framework-row" e = true →
  assoc "data-platforms" (el_attrs e) = Some s →
  document p' !! n' = Some e0 → has_class "framework-row" e0 = true →
  assoc "data-platforms" (el_attrs e0) = Some s →
  wanted_set (document p) ⊆ wanted_set (document p') →
  (has_class "available" <$> document (updatePlatforms p').2 !! n') = Some true →
  (has_class "available" <$> document (updatePlatforms p).2 !! n) = Some true.
Proof.
  intros Hf Hok Hrows Hf' Hok' Hrows' He Hrow Hs He0 Hrow0 Hs0 Hsub Hav.
  destruct (enabled_row p n e s Hf (λ v, checkboxes_ok_names _ v Hok) Hrows He Hrow Hs)
    as (e1&->&Ha&_).
  destruct (enabled_row p' n' e0 s Hf' (λ v, checkboxes_ok_names _ v Hok') Hrows' He0
              Hrow0 Hs0) as (e1'&He1'&Ha'&_).
  rewrite He1' in Hav. simpl in *. f_equal. injection Hav as Hav.
  rewrite Ha. rewrite Ha' in Hav.
  apply (subset_every _ s (λ v, checkboxes_ok_strings _ v Hok)).
  apply (subset_every _ s (λ v, checkboxes_ok_strings _ v Hok')) in Hav.
  by etransitivity.
Qed.

(** ** Runs that fail with the filter enabled *)

#[global] Instance before_rows_rel_PreOrder : PreOrder before_rows_rel.
Proof.
  split.
  - intros e. split; reflexivity.
  - intros e1 e2 e3 [? ?] [? ?]. split; by etransitivity.
Qed.

Lemma before_rows_frame e e' : before_rows_rel e e' → frame_rel e e'.
Proof.
  intros [Hs Hcl]. split; [done|]. intros c Hc. apply Hcl.
  intros ->%list_elem_of_singleton. apply Hc. solve_in.
Qed.

Lemma before_rows_add e : before_rows_rel e (add_class "framework-platform-required" e).
Proof. split; [done|]. apply same_classes_add. solve_in. Qed.

(** With the filter enabled, a run is the two loops on a page that differs
    from the given one only in the "required" class and the display
    state of the panel. *)
Lemma enabled_start p :
  filter_enabled (document p) = Some true →
  ∃ d2, Forall2 before_rows_rel (document p) d2 ∧
    updatePlatforms p =
    (mark_required (wanted_list (document p));; mark_rows (wanted_list (document p)))
      (with_document d2 p).
Proof.
  intros Hf. destruct (updatePlatforms_enabled p Hf) as (d1&d2&H1&H2&Hrun).
  assert (Forall2 before_rows_rel (document p) d2) as HF2.
  { transitivity d1.
    - subst d1. apply (Forall2_update_nodes before_rows_rel). intros e.
      split; [done|]. apply same_classes_remove. solve_in.
    - subst d2. apply (Forall2_update_nodes before_rows_rel). intros e.
      split; [done|]. by intros c _. }
  exists d2. split; [done|].
  rewrite <-(wanted_list_related (document p) d2); [done|].
  eapply Forall2_impl; [done|]. apply before_rows_frame.
Qed.

Lemma row_marks_related (d d' : list element) :
  Forall2 before_rows_rel d d' → row_marks d' = row_marks d.
Proof.
  unfold row_marks. induction 1 as [|e e' d d' [_ Hcl] _ IH]; [done|].
  cbn [omap list_omap]. rewrite IH.
  by rewrite !Hcl by solve_notin.
Qed.

Lemma rows_have_platforms (d d' : list element) n :
  Forall2 before_rows_rel d d' → rows_ok d = true →
  n ∈ nodes_where (λ _ e, has_class "framework-row" e) d' → has_platforms d' n.
Proof.
  intros HF Hrows Hn. apply elem_of_nodes_where in Hn. unfold node_sat in Hn.
  destruct (d' !! n) as [e'|] eqn:He'; [|done].
  destruct (Forall2_lookup_r _ _ _ _ _ HF He') as (e&He&[(_&_&_&Ha&_) Hcl]).
  exists e'. split; [done|]. rewrite Ha.
  apply (proj1 (rows_ok_lookup _) Hrows n e He).
  rewrite <-(Hcl "framework-row"); [done|solve_notin].
Qed.

(** X10. On a page whose rows all carry data-platforms, a run with the
    filter enabled that fails has failed before it visited the rows: the
    row marks ("available", "not-available") are those from before the
    run, whatever the checkboxes say now. *)
Theorem failed_run_keeps_row_marks (p : page) (err : js_error) :
  filter_enabled (document p) = Some true →
  rows_ok (document p) = true →
  (updatePlatforms p).1 = Throw err →
  row_marks (document (updatePlatforms p).2) = row_marks (document p).
Proof.
  intros Hf Hrows. destruct (enabled_start p Hf) as (d2&HF2&->).
  set (w := wanted_list (document p)). set (q := with_document d2 p).
  pose proof (mark_required_within before_rows_rel w before_rows_add q) as (_&_&_&HF3).
  rewrite bind_unfold.
  destruct (mark_required w q) as [[[]|err'] q'] eqn:Hreq; simpl in HF3.
  - unfold mark_rows. rewrite bind_unfold. erewrite jq_eval by reflexivity.
    unfold each. rewrite mark_loop_eval; [done|].
    intros n Hn. apply (rows_have_platforms (document p)); [|done..].
    by etransitivity.
  - intros _. simpl. apply row_marks_related. by etransitivity.
Qed.

(** ** A row without data-platforms *)

Lemma nodes_where_split P (d : list element) k :
  node_sat P d k = true →
  nodes_where P d =
  filter (λ n, node_sat P d n = true) (seq 0 k) ++
  k :: filter (λ n, node_sat P d n = true) (seq (S k) (length d - S k)).
Proof.
  intros Hk. unfold nodes_where.
  assert (k < length d) as Hlt.
  { unfold node_sat in Hk. destruct (d !! k) eqn:E; [|done].
    by apply lookup_lt_Some in E. }
  replace (length d) with (k + S (length d - S k)) at 1 by lia.
  rewrite seq_app, filter_app. cbn [seq]. rewrite filter_cons_True by done.
  done.
Qed.

Lemma mark_loop_stop w ns1 k ns2 idx p :
  (∀ n, n ∈ ns1 → has_platforms (document p) n) →
  (∀ e, document p !! k = Some e → assoc "data-platforms" (el_attrs e) = None) →
  js_loop idx (ns1 ++ k :: ns2) (λ _ tr _, mark_row w tr) () p =
  (Throw TypeError, with_document (update_nodes (mark_element w) ns1 (document p)) p).
Proof.
  revert idx p. induction ns1 as [|tr ns1 IH]; intros idx p Hns Hk.
  - cbn [app js_loop]. rewrite bind_unfold, mark_row_throw by done. by destruct p.
  - cbn [app js_loop]. rewrite bind_unfold.
    destruct (Hns tr) as (e&He&s&Hs); [left|].
    rewrite (mark_row_eval _ _ _ _ _ He Hs). rewrite IH; [done|..].
    + intros n Hn. simpl. apply has_platforms_alter, Hns. by right.
    + intros e'. simpl. destruct (decide (tr = k)) as [->|Hne].
      * rewrite list_lookup_alter_eq. destruct (document p !! k) as [e0|] eqn:He0; [|done].
        simpl. intros ?; simplify_eq. rewrite mark_element_attrs. by apply Hk.
      * rewrite list_lookup_alter_ne by done. apply Hk.
Qed.

(** X11. With the filter enabled and well-formed platform checkboxes, a
    run that meets a row without data-platforms throws a TypeError there:
    the rows before the first such row are marked by the subset test, that
    row and the rows after it keep the marks they had. *)
Theorem row_without_platforms_stops (p : page) (k : nat) (ek : element) :
  filter_enabled (document p) = Some true →
  checkboxes_ok (document p) = true →
  rows_ok (take k (document p)) = true →
  document p !! k = Some ek →
  has_class "framework-row" ek = true →
  assoc "data-platforms" (el_attrs ek) = None →
  (updatePlatforms p).1 = Throw TypeError ∧
  ∀ n e, document p !! n = Some e → has_class "framework-row" e = true →
    ∃ e', document (updatePlatforms p).2 !! n = Some e' ∧
      if decide (n < k) then
        ∃ s, assoc "data-platforms" (el_attrs e) = Some s ∧
          (has_class "available" e' = true ↔ wanted_set (document p) ⊆ platform_set s) ∧
          (has_class "not-available" e' = true ↔
             ¬ wanted_set (document p) ⊆ platform_set s)
      else
        has_class "available" e' = has_class "available" e ∧
        has_class "not-available" e' = has_class "not-available" e.
Proof.
  intros Hf Hok Hfirst Hek Hrowk Hnone.
  destruct (enabled_start p Hf) as (d2&HF2&Hrun).
  set (w := wanted_list (document p)) in *.
  rewrite bind_unfold, mark_required_eval in Hrun
    by (intros v Hv; by apply (checkboxes_ok_names (document p))).
  simpl in Hrun. set (d3 := foldl require_step d2 w) in *.
  assert (Forall2 before_rows_rel (document p) d3) as HF.
  { etransitivity; [done|].
    pose proof (mark_required_within before_rows_rel w before_rows_add
                  (with_document d2 p)) as Hr.
    rewrite mark_required_eval in Hr
      by (intros v Hv; by apply (checkboxes_ok_names (document p))).
    by destruct Hr as (_&_&_&Hr). }
  set (rowP := λ (_ : nat) e, has_class "framework-row" e).
  assert (∀ n, node_sat rowP d3 n = node_sat rowP (document p) n) as Hsat.
  { intros n. eapply node_sat_related; [done|]. intros e e' [_ Hcl].
    apply Hcl. solve_notin. }
  assert (node_sat rowP d3 k = true) as Hk.
  { rewrite Hsat. unfold node_sat. by rewrite Hek. }
  set (ns1 := filter (λ n, node_sat rowP d3 n = true) (seq 0 k)).
  assert (∀ n, n ∈ ns1 ↔ n < k ∧ node_sat rowP (document p) n = true) as Hns1.
  { intros n. unfold ns1. rewrite list_elem_of_filter, elem_of_seq, Hsat.
    split; [intros [HP [_ Hlt]]; split; [lia|done]|intros [Hlt HP]; split; [done|lia]]. }
  assert (∀ n e, n < k → document p !! n = Some e → has_class "framework-row" e = true →
                 is_Some (assoc "data-platforms" (el_attrs e))) as Hbefore.
  { intros n e Hn He Hrow. apply (proj1 (rows_ok_lookup _) Hfirst n e); [|done].
    by rewrite lookup_take_lt. }
  assert (updatePlatforms p =
          (Throw TypeError, with_document (update_nodes (mark_element w) ns1 d3) p)) as ->.
  { rewrite Hrun. unfold mark_rows. rewrite bind_unfold. erewrite jq_eval by reflexivity.
    unfold each.
    change (select (sel_simple (by_class "framework-row")) ?d) with (nodes_where rowP d).
    cbn [document with_document].
    rewrite (nodes_where_split rowP d3 k Hk). fold ns1.
    rewrite mark_loop_stop; [done|..].
    - intros n [Hn Hrow]%Hns1. unfold node_sat in Hrow.
      destruct (document p !! n) as [e|] eqn:He; [|done].
      destruct (Forall2_lookup_l _ _ _ _ _ HF He) as (e3&He3&[(_&_&_&Ha&_) _]).
      exists e3. split; [done|]. rewrite Ha. by apply (Hbefore n).
    - intros e3 He3. simpl in He3.
      destruct (Forall2_lookup_r _ _ _ _ _ HF He3) as (e&He&[(_&_&_&Ha&_) _]).
      rewrite Ha. by simplify_eq. }
  split; [done|]. intros n e He Hrow. simpl.
  destruct (Forall2_lookup_l _ _ _ _ _ HF He) as (e3&He3&[(_&_&_&Ha&_) Hcl]).
  destruct (decide (n < k)) as [Hn|Hn].
  - rewrite update_nodes_in, He3;
      [|apply NoDup_filter, NoDup_seq|apply Hns1; split; [done|]; unfold node_sat;
        by rewrite He].
    eexists. split; [done|].
    destruct (Hbefore n e Hn He Hrow) as [s Hs]. exists s. split; [done|].
    rewrite <-(subset_every _ s (λ v, checkboxes_ok_strings _ v Hok)). fold w.
    unfold mark_element. rewrite Ha, Hs.
    destruct (every _ w).
    + rewrite !has_class_mark_available. simpl.
      rewrite orb_true_r, andb_false_r. simpl. split; [done|].
      split; [done|]. by intros [].
    + rewrite !has_class_mark_not_available. simpl.
      rewrite orb_true_r, andb_false_r. simpl. split; [done|].
      split; [by intros _ ?|done].
  - rewrite update_nodes_notin, He3 by (rewrite Hns1; lia).
    eexists. split; [done|]. split; apply Hcl; solve_notin.
Qed.

(** ** Clicks on the controls *)

#[global] Instance markup_rel_PreOrder : PreOrder markup_rel.
Proof.
  split.
  - intros e. by repeat split.
  - intros e1 e2 e3 (?&?&?&?&H12) (?&?&?&?&H23).
    repeat split; [congruence..|]. by etransitivity.
Qed.

Lemma frame_markup e e' : frame_rel e e' → markup_rel e e'.
Proof. intros [(?&?&?&?&?) ?]. by repeat split. Qed.

Lemma markup_rel_closed : script_closed markup_rel.
Proof.
  split; [split; [apply _|..]|..]; intros; apply frame_markup, frame_rel_closed.
Qed.

Lemma markup_rel_checked b e : markup_rel e (set_checked b e).
Proof. by repeat split. Qed.

Lemma markup_serve d evs : Forall2 markup_rel d (document (serve (ready d) evs)).
Proof.
  transitivity (document (ready d)).
  - unfold ready, after. rewrite main_eval.
    by destruct (respects_updateMaintainers _ markup_rel_closed
      (Page d (Some (mkNoteTip None None (Some clear_described))) js_undefined
            (bound_handlers d))) as (_&_&_&?).
  - apply (doc_rel_serve markup_rel markup_rel_closed markup_rel_checked).
Qed.

Lemma find_id_markup (d d' : list element) i :
  Forall2 markup_rel d d' → find_id i d' = find_id i d.
Proof.
  intros HF. unfold find_id. f_equal. apply nodes_where_ext.
  - symmetry. by eapply Forall2_length.
  - intros n. eapply node_sat_related; [done|].
    intros e e' (?&?&Hid&?&?). simpl. by rewrite Hid.
Qed.

Lemma checkboxes_ok_markup (d d' : list element) :
  Forall2 markup_rel d d' → checkboxes_ok d = true → checkboxes_ok d' = true.
Proof.
  unfold checkboxes_ok. rewrite <-!Is_true_true, !forallb_True, !Forall_lookup.
  intros HF Hok n e' He'.
  destruct (Forall2_lookup_r _ _ _ _ _ HF He') as (e&He&(_&_&_&Ha&Hcl)).
  specialize (Hok n e He). unfold checkbox_ok in *.
  by rewrite Ha, (Hcl "platform-checkbox") by solve_notin.
Qed.

Lemma rows_ok_markup (d d' : list element) :
  Forall2 markup_rel d d' → rows_ok d = true → rows_ok d' = true.
Proof.
  unfold rows_ok. rewrite <-!Is_true_true, !forallb_True, !Forall_lookup.
  intros HF Hok n e' He'.
  destruct (Forall2_lookup_r _ _ _ _ _ HF He') as (e&He&(_&_&_&Ha&Hcl)).
  specialize (Hok n e He). unfold row_ok in *.
  by rewrite Ha, (Hcl "framework-row") by solve_notin.
Qed.



(** The browser's part of a click returns and changes at most the checked
    state of the target. *)
Lemma activate_eval target p :
  ∃ d', activate target p = (Normal (), with_document d' p) ∧
        Forall2 markup_rel (document p) d' ∧
        ∀ e, document p !! target = Some e →
             d' !! target =
             Some (if is_checkbox e then set_checked (negb (el_checked e)) e else e).
Proof.
  unfold activate. rewrite bind_unfold. simpl.
  destruct (document p !! target) as [e|] eqn:He.
  - destruct (is_checkbox e) eqn:Hbox.
    + eexists. split; [reflexivity|]. split.
      * apply (Forall2_alter_within markup_rel). intros. apply markup_rel_checked.
      * intros e0 ?. simplify_eq. by rewrite list_lookup_alter_eq, He, Hbox.
    + exists (document p). split; [by destruct p|]. split; [reflexivity|].
      intros e0 ?. simplify_eq. by rewrite Hbox.
  - exists (document p). split; [by destruct p|]. split; [reflexivity|]. done.
Qed.







(** ** No event throws on a well-formed page *)

Lemma note_state_with_document d' q : note_state (with_document d' q) = note_state q.
Proof. by destruct q. Qed.

Lemma checked_Some i (d d' : list element) :
  is_Some (find_id i d) → Forall2 markup_rel d d' →
  ∃ b, (n ← find_id i d'; el_checked <$> d' !! n) = Some b.
Proof.
  intros [m Hm] HF. rewrite (find_id_markup _ _ _ HF), Hm. simpl.
  destruct (find_id_lookup _ _ _ Hm) as (e&He&_).
  destruct (Forall2_lookup_l _ _ _ _ _ HF He) as (e'&->&_). by eexists.
Qed.

Lemma handler_returns d h n q :
  is_Some (find_id "platform-filter" d) →
  checkboxes_ok d = true →
  rows_ok d = true →
  page_inv d q →
  (h = h_updateMaintainers → is_Some (find_id "showMaintainers" d)) →
  ∃ b q', run_handler h n q = (Normal b, q') ∧ page_inv d q'.
Proof.
  intros Hfid Hok Hrows [HF Hs] Hm. destruct h; cbn [run_handler].
  - destruct (checked_Some "showMaintainers" d (document q) (Hm eq_refl) HF) as [b Hb].
    rewrite bind_unfold, (updateMaintainers_eval q b Hb). cbn [mret JS_ret js_ret].
    do 2 eexists. split; [done|]. split.
    + simpl. etransitivity; [done|]. apply (Forall2_update_nodes markup_rel).
      intros e. apply (closed_shown _ markup_rel_closed).
    + by rewrite note_state_with_document.
  - destruct (checked_Some "platform-filter" d (document q) Hfid HF) as [b Hb].
    pose proof (respects_updatePlatforms markup_rel markup_rel_closed q) as Hr.
    assert ((updatePlatforms q).1 = Normal ()) as Hn.
    { destruct b.
      - destruct (enabled_run q Hb) as (d3&_&->); [|by eapply rows_ok_markup|done].
        intros v Hv. eapply checkboxes_ok_names; [|done]. by eapply checkboxes_ok_markup.
      - by destruct (updatePlatforms_disabled q Hb) as (?&?&?&?&_&_&_&_&->). }
    rewrite bind_unfold. destruct (updatePlatforms q) as [c q']. simpl in Hn, Hr.
    subst c. cbn [mret JS_ret js_ret]. do 2 eexists. split; [done|].
    split; [destruct Hr as (_&_&_&?); by etransitivity|].
    by apply (dom_rel_keeps_note_state markup_rel q q').
  - pose proof (keeps_note_state_noteClick n q Hs) as Hk.
    pose proof (tooltip_only_noteClick n q) as [Hd _].
    destruct Hs as [s Hs]. destruct (note_state_Some _ _ Hs) as (t&Ht&_).
    assert (∃ q', noteClick n q = (Normal false, q')) as [q' Hq'].
    { destruct (ref_is (g_currentlyDescribedElement q) n) eqn:Hr.
      - destruct (g_currentlyDescribedElement q) as [| |E'] eqn:Hdesc; try done.
        simpl in Hr. apply bool_decide_eq_true in Hr as ->.
        rewrite (noteClick_same n q t Ht Hdesc). by eexists.
      - rewrite (noteClick_other n q t Ht Hr). by eexists. }
    rewrite Hq' in *. simpl in *. do 2 eexists. split; [done|].
    split; [by rewrite Hd|done].
Qed.

Lemma listeners_return d l n q :
  is_Some (find_id "platform-filter" d) →
  checkboxes_ok d = true →
  rows_ok d = true →
  (∀ m, (m, h_updateMaintainers) ∈ l → is_Some (find_id "showMaintainers" d)) →
  page_inv d q →
  ∃ q', run_listeners l n q = (Normal (), q') ∧ page_inv d q'.
Proof.
  intros Hfid Hok Hrows. revert q. induction l as [|[m h] l IH]; intros q Hl Hinv.
  - by exists q.
  - cbn [run_listeners]. rewrite bind_unfold.
    assert (∃ q1, (if bool_decide (m = n) then run_handler h n;; mret () else mret ()) q =
                  (Normal (), q1) ∧ page_inv d q1) as (q1&->&Hinv1).
    { case_bool_decide; [|by exists q].
      destruct (handler_returns d h n q Hfid Hok Hrows Hinv) as (b&q1&Hrun&?).
      - intros ->. apply (Hl m). by left.
      - rewrite bind_unfold, Hrun. by exists q1. }
    apply IH; [|done]. intros m' Hm'. apply (Hl m'). by right.
Qed.

Lemma maintainers_handler_bound d m :
  (m, h_updateMaintainers) ∈ bound_handlers d → is_Some (find_id "showMaintainers" d).
Proof.
  unfold bound_handlers. rewrite !elem_of_app, !list_elem_of_fmap.
  intros [(x&_&Hx)|[(x&?&_)|[(x&?&_)|(x&?&_)]]]; try done.
  simpl in Hx. destruct (find_id "showMaintainers" d); [by eexists|].
  by apply elem_of_nil in Hx.
Qed.

(** X14. On a well-formed page with the filter checkbox, no event throws
    once [main] has run, whatever has happened before: every click, on any
    element, and every hide event is served to the end, also when [main]
    itself threw for want of the showMaintainers checkbox. *)
Theorem events_never_throw (d : list element) (evs : list event) (ev : event) :
  is_Some (find_id "platform-filter" d) →
  checkboxes_ok d = true →
  rows_ok d = true →
  (dispatch ev (serve (ready d) evs)).1 = Normal ().
Proof.
  intros Hfid Hok Hrows.
  pose proof (listeners_serve d evs) as Hl.
  assert (page_inv d (serve (ready d) evs)) as [HF Hs].
  { split; [apply markup_serve|apply note_state_serve, note_state_ready]. }
  set (p := serve (ready d) evs) in *. destruct ev as [n|]; cbn [dispatch].
  - destruct (activate_eval n p) as (dq&Hact&HFq&_).
    rewrite bind_unfold, Hact, bind_unfold. simpl. rewrite Hl.
    destruct (listeners_return d (bound_handlers d) n (with_document dq p) Hfid Hok Hrows)
      as (q'&->&_); [apply maintainers_handler_bound| |done].
    split; [simpl; by etransitivity|by rewrite note_state_with_document].
  - destruct Hs as [s Hs]. destruct (note_state_Some _ _ Hs) as (t&Ht&_).
    by rewrite (NoteTip_hide_eval p t Ht).
Qed.

(** ** The panel of the filter options *)

(** X15. With the filter checked, a run shows the filter-options panel
    however it completes: also when it throws afterwards, at a platform
    tag or at a row. *)
Theorem enabled_shows_panel (p : page) (g : nat) :
  filter_enabled (document p) = Some true →
  find_id "platform-filter-group" (document p) = Some g →
  el_shown <$> document (updatePlatforms p).2 !! g = Some true.
Proof.
  intros Hf Hg. destruct (updatePlatforms_enabled p Hf) as (d1&d2&H1&H2&->).
  assert (find_id "platform-filter-group" d1 = Some g) as Hg1.
  { rewrite <-Hg. apply find_id_related. subst d1. by apply same_static_update. }
  destruct (find_id_lookup _ _ _ Hg1) as (e1&He1&_).
  assert (d2 !! g = Some (set_shown true e1)) as He2.
  { subst d2. rewrite Hg1.
    change (alter (set_shown true) g d1 !! g = Some (set_shown true e1)).
    by rewrite list_lookup_alter_eq, He1. }
  destruct (tail_keeps_shown (wanted_list d2) (with_document d2 p) g _ He2)
    as (e'&->&Hshown).
  simpl. by rewrite Hshown.
Qed.

(** ** A platform checkbox without a tag *)

Lemma tags_ok_names (d : list element) v :
  tags_ok d = true → v ∈ wanted_list d → css_name (default "null" v) = true.
Proof.
  unfold tags_ok. rewrite <-Is_true_true, forallb_True, Forall_lookup.
  intros Hok (n&e&He&Hpc&Hc&Hv)%elem_of_wanted_list.
  specialize (Hok n e He). apply Is_true_true in Hok.
  rewrite Hpc, Hc, Hv in Hok. simpl in Hok. by destruct v.
Qed.

(** X16. A checked platform checkbox without a data-platform attribute
    pushes null to the wanted platforms; null is in no row's platforms, so
    with the filter enabled the run returns and leaves every row
    "not-available". *)
Theorem checkbox_without_tag_hides_all (p : page) (c n : nat) (ec e : element) :
  filter_enabled (document p) = Some true →
  tags_ok (document p) = true →
  rows_ok (document p) = true →
  document p !! c = Some ec →
  has_class "platform-checkbox" ec = true →
  el_checked ec = true →
  assoc "data-platform" (el_attrs ec) = None →
  document p !! n = Some e →
  has_class "framework-row" e = true →
  (updatePlatforms p).1 = Normal () ∧
  ∃ e', document (updatePlatforms p).2 !! n = Some e' ∧
        has_class "available" e' = false ∧ has_class "not-available" e' = true.
Proof.
  intros Hf Htags Hrows Hec Hpc Hc Hnone He Hrow.
  split.
  { by destruct (enabled_run p Hf (λ v, tags_ok_names _ v Htags) Hrows) as (?&_&->). }
  destruct (proj1 (rows_ok_lookup _) Hrows n e He Hrow) as [s Hs].
  destruct (enabled_row p n e s Hf (λ v, tags_ok_names _ v Htags) Hrows He Hrow Hs)
    as (e'&He'&Hav&Hna).
  exists e'. split; [done|].
  assert (has_class "available" e' = false) as Hfalse.
  { rewrite Hav. apply not_true_is_false. rewrite every_true. intros Hall.
    specialize (Hall None). rewrite indexOf_found in Hall.
    assert (None ∈ (Some <$> js_split "," s : list js_string)) as Hin.
    { apply Hall. apply elem_of_wanted_list. by exists c, ec. }
    by apply list_elem_of_fmap in Hin as (?&?&_). }
  by rewrite Hna, Hfalse.
Qed.

End jquery.

(** * The theorems and the script at work on sample pages *)

Lemma updatePlatforms_filter_unchecked_witness :
  (updatePlatforms rejects (loaded (sample false))).1 = Normal () ∧
  el_shown <$> document (updatePlatforms rejects (loaded (sample false))).2 !! 2 =
    Some false.
Proof.
  destruct (updatePlatforms_filter_unchecked rejects (loaded (sample false)))
    as (H1&H2&_); [reflexivity|].
  split; [exact H1|]. apply H2. reflexivity.
Defined.

Lemma row_available_iff_subset_witness :
  ∃ e', document (updatePlatforms rejects (loaded (sample true))).2 !! 10 = Some e' ∧
    (has_class "not-available" e' = true ↔
     ¬ wanted_set (sample true) ⊆ platform_set "Windows").
Proof.
  destruct (row_available_iff_subset rejects (loaded (sample true)) 10
              (Element "tr" None None ["framework-row"; "available"; "not-available"]
                 [("data-platforms", "Windows")] false true) "Windows")
    as (_&e'&He'&_&H); [reflexivity..|].
  exists e'. split; [exact He'|exact H].
Defined.

Lemma no_platform_checked_all_available_witness :
  wanted_set (sample_page true false) = ∅ ∧
  (updatePlatforms rejects (loaded (sample_page true false))).1 = Normal ().
Proof.
  destruct (no_platform_checked_all_available rejects (loaded (sample_page true false)))
    as (H1&H2&_); [reflexivity..|].
  split; [exact H1|exact H2].
Defined.

Lemma empty_data_platforms_row_witness :
  ∃ e', document (updatePlatforms rejects (loaded (sample true))).2 !! 13 = Some e' ∧
        has_class "not-available" e' = true ∧ has_class "available" e' = false.
Proof.
  destruct (empty_data_platforms_row rejects (loaded (sample true)) 13
              (Element "tr" None None ["framework-row"; "not-available"]
                 [("data-platforms", "")] false true))
    as (_&_&_&e'&He'&H&_); [reflexivity..|].
  exists e'. split; [exact He'|]. apply H. exists "Linux".
  split; [vm_compute; reflexivity|discriminate].
Defined.

Lemma required_iff_wanted_witness :
  has_class "framework-platform-required"
    (Element "td" (Some 6) None
       ["framework-platform"; "framework-platform-Linux"; "framework-platform-required"]
       [] false true) = true ↔
  true = true ∧ ∃ t, t ∈ wanted_set (sample true) ∧
    has_class ("framework-platform-" +:+ t)
      (Element "td" (Some 6) None
         ["framework-platform"; "framework-platform-Linux"; "framework-platform-required"]
         [] false true) = true.
Proof.
  apply (required_iff_wanted rejects (loaded (sample true)) true 7); reflexivity.
Defined.

Lemma marks_mutually_exclusive_witness :
  rows_exclusive (document (updatePlatforms rejects (loaded (sample true))).2) = true ∧
  rows_exclusive
    (document (serve rejects (serve rejects (ready rejects (sample true)) [UserClick 4])
                     [UserClick 1; UserClick 3])) = true.
Proof.
  split.
  - apply (proj1 (marks_mutually_exclusive rejects) (loaded (sample true))).
    vm_compute. reflexivity.
  - apply (proj2 (marks_mutually_exclusive rejects)). vm_compute. reflexivity.
Defined.

Lemma reclick_hides_witness :
  ∃ p', noteClick 8 (serve rejects (ready rejects (sample true)) [UserClick 8]) =
          (Normal false, p') ∧
        note_state p' = Some Hidden.
Proof.
  destruct (reclick_hides (serve rejects (ready rejects (sample true)) [UserClick 8]) 8)
    as (p'&H1&H2&_); [reflexivity|].
  exists p'. split; [exact H1|exact H2].
Defined.

Lemma click_shows_witness :
  ∃ p' t', noteClick 12 (serve rejects (ready rejects (sample true)) [UserClick 8]) =
             (Normal false, p') ∧
    g_noteTip p' = Some t' ∧ tip_text t' = Some "No printing" ∧
    g_currentlyDescribedElement p' = js_element 12.
Proof.
  destruct (click_shows (serve rejects (ready rejects (sample true)) [UserClick 8]) 12
              (Shown 8))
    as (p'&t'&H1&H2&H3&_&H4&_); [reflexivity|discriminate|].
  exists p', t'. repeat split; [exact H1|exact H2|exact H3|exact H4].
Defined.

Lemma maintainers_follow_checkbox_witness :
  columns_shown true (document (ready rejects (sample true))) = true ∧
  columns_shown false
    (document (updateMaintainers rejects
                 (serve rejects (ready rejects (sample true)) [UserClick 0])).2) = true.
Proof.
  split.
  - apply (proj2 (maintainers_follow_checkbox rejects) (sample true) true). reflexivity.
  - apply (proj1 (maintainers_follow_checkbox rejects)). reflexivity.
Defined.

(** The two examples of the specification: W = {linux, mac} against
    R = {linux, mac, windows}, and W = {linux, bsd} against R = {linux, mac};
    then no wanted tag against three rows, one with an empty attribute. *)
Example wanted_within_row :
  row_marks (document (updatePlatforms rejects
    (loaded (filter_page ["linux"; "mac"] ["linux,mac,windows"]))).2) = [(true, false)].
Proof. vm_compute. reflexivity. Qed.

Example wanted_beyond_row :
  row_marks (document (updatePlatforms rejects
    (loaded (filter_page ["linux"; "bsd"] ["linux,mac"]))).2) = [(false, true)].
Proof. vm_compute. reflexivity. Qed.

Example nothing_wanted :
  row_marks (document (updatePlatforms rejects
    (loaded (filter_page [] ["linux"; ""; "mac,bsd"]))).2) =
  [(true, false); (true, false); (true, false)].
Proof. vm_compute. reflexivity. Qed.

Example empty_attribute_row :
  row_marks (document (updatePlatforms rejects
    (loaded (filter_page ["linux"] [""; "linux"]))).2) = [(false, true); (true, false)].
Proof. vm_compute. reflexivity. Qed.

(** The tooltip through three clicks on the sample page: the first note
    link, the second one, the second one again. *)
Example tooltip_walk :
  note_state <$> [serve rejects (ready rejects (sample true)) [UserClick 8];
                  serve rejects (ready rejects (sample true)) [UserClick 8; UserClick 12];
                  serve rejects (ready rejects (sample true))
                    [UserClick 8; UserClick 12; UserClick 12]] =
  [Some (Shown 8); Some (Shown 12); Some Hidden].
Proof. vm_compute. reflexivity. Qed.

(** * The further properties on sample pages *)

Lemma updatePlatforms_without_checkbox_witness :
  updatePlatforms rejects (loaded rows_only) = (Throw TypeError, loaded rows_only).
Proof. apply (updatePlatforms_without_checkbox rejects). reflexivity. Defined.

Lemma main_without_checkbox_witness :
  (main rejects (loaded rows_only)).1 = Throw TypeError ∧
  note_state (ready rejects rows_only) = Some Hidden.
Proof.
  destruct (main_without_checkbox rejects rows_only) as [H1 H2]; [reflexivity|].
  split; [rewrite H1; reflexivity|exact H2].
Defined.

Lemma updateMaintainers_changes_only_witness :
  listeners (updateMaintainers rejects (ready rejects (sample true))).2 =
    listeners (ready rejects (sample true)) ∧
  ∃ e', document (updateMaintainers rejects (ready rejects (sample true))).2 !! 6 =
          Some e'.
Proof.
  destruct (updateMaintainers_changes_only rejects (ready rejects (sample true)) 6
              (Element "tr" None None ["framework-row"]
                 [("data-platforms", "Linux,Windows")] false true))
    as (_&_&H&e'&He'&_); [reflexivity|].
  split; [exact H|]. exists e'. exact He'.
Defined.

Lemma ready_page_witness :
  ∃ e', document (ready rejects (sample true)) !! 10 = Some e' ∧
        el_classes e' = ["framework-row"; "available"; "not-available"].
Proof.
  destruct (ready_page rejects (sample true)) as (_&_&H).
  destruct (H 10 (Element "tr" None None ["framework-row"; "available"; "not-available"]
                    [("data-platforms", "Windows")] false true))
    as (e'&He'&Hcl&_); [reflexivity|].
  exists e'. split; [exact He'|exact Hcl].
Defined.

Lemma hide_event_clears_witness :
  ∃ p', dispatch rejects TipHide (serve rejects (ready rejects (sample true)) [UserClick 8]) =
          (Normal (), p') ∧
        note_state p' = Some Hidden.
Proof.
  destruct (hide_event_clears rejects
              (serve rejects (ready rejects (sample true)) [UserClick 8]) (Shown 8))
    as (p'&H1&H2&_); [reflexivity|].
  exists p'. split; [exact H1|exact H2].
Defined.

Lemma updatePlatforms_changes_only_witness :
  ∃ e', document (updatePlatforms rejects (loaded (sample true))).2 !! 6 = Some e' ∧
        el_shown e' = true.
Proof.
  destruct (updatePlatforms_changes_only rejects (loaded (sample true)) 6
              (Element "tr" None None ["framework-row"]
                 [("data-platforms", "Linux,Windows")] false true))
    as (_&_&_&e'&He'&_&_&H); [reflexivity|].
  exists e'. split; [exact He'|]. apply H. vm_compute. discriminate.
Defined.

Lemma shown_text_is_note_witness :
  tip_text (mkNoteTip (Some "Needs X11") (Some 8) (Some clear_described)) =
  note_of (sample true) 8.
Proof.
  apply (shown_text_is_note rejects (sample true) [UserClick 12; UserClick 8]);
    reflexivity.
Defined.

Lemma more_wanted_fewer_available_witness :
  (has_class "available" <$>
     document (updatePlatforms rejects
                 (loaded (filter_page ["linux"] ["linux,mac"]))).2 !! 2) = Some true.
Proof.
  apply (more_wanted_fewer_available rejects
           (loaded (filter_page ["linux"] ["linux,mac"]))
           (loaded (filter_page ["linux"; "mac"] ["linux,mac"])) 2 3
           (Element "tr" None None ["framework-row"] [("data-platforms", "linux,mac")]
              false true)
           (Element "tr" None None ["framework-row"] [("data-platforms", "linux,mac")]
              false true)
           "linux,mac"); try reflexivity.
  apply (bool_decide_unpack _). vm_compute. exact I.
Defined.

Lemma failed_run_keeps_row_marks_witness :
  row_marks (document (updatePlatforms rejects (loaded odd_tag_page)).2) = [(true, false)].
Proof.
  apply (failed_run_keeps_row_marks rejects (loaded odd_tag_page) SyntaxError);
    vm_compute; reflexivity.
Defined.

Lemma row_without_platforms_stops_witness :
  (updatePlatforms rejects (loaded broken_row_page)).1 = Throw TypeError ∧
  ∃ e', document (updatePlatforms rejects (loaded broken_row_page)).2 !! 4 = Some e' ∧
        has_class "available" e' = true.
Proof.
  destruct (row_without_platforms_stops rejects (loaded broken_row_page) 3
              (Element "tr" None None ["framework-row"; "available"] [] false true))
    as [H1 H2]; [reflexivity..|].
  split; [exact H1|].
  destruct (H2 4 (Element "tr" None None ["framework-row"; "available"]
                    [("data-platforms", "Windows")] false true))
    as (e'&He'&Hm); [reflexivity..|].
  exists e'. split; [exact He'|]. exact (proj1 Hm).
Defined.



(** A click on a platform checkbox of the sample page, then one on the
    filter checkbox: the rows are marked by the subset test, then unmarked. *)
Example filter_walk :
  row_marks <$> [document (ready rejects (sample true));
                 document (serve rejects (ready rejects (sample true)) [UserClick 4]);
                 document (serve rejects (ready rejects (sample true))
                             [UserClick 4; UserClick 1])] =
  [[(false, false); (true, true); (false, true)];
   [(true, false); (false, true); (false, true)];
   [(false, false); (false, false); (false, false)]].
Proof. vm_compute. reflexivity. Qed.

(** A run that fails at a tag jQuery rejects leaves the row "available"
    although the wanted platform is not among the row's. *)
Example stale_marks :
  (updatePlatforms rejects (loaded odd_tag_page)).1 = Throw SyntaxError ∧
  row_marks (document (updatePlatforms rejects (loaded odd_tag_page)).2) = [(true, false)].
Proof. vm_compute. split; reflexivity. Qed.

Lemma events_never_throw_witness :
  (dispatch rejects (UserClick 3)
     (serve rejects (ready rejects (sample true)) [UserClick 8; UserClick 1])).1 = Normal ().
Proof.
  apply (events_never_throw rejects (sample true) [UserClick 8; UserClick 1] (UserClick 3)).
  - exists 1. reflexivity.
  - reflexivity.
  - reflexivity.
Defined.

Lemma enabled_shows_panel_witness :
  el_shown <$> document (updatePlatforms rejects (loaded (sample true))).2 !! 2 = Some true.
Proof. apply (enabled_shows_panel rejects (loaded (sample true)) 2); reflexivity. Defined.

Lemma checkbox_without_tag_hides_all_witness :
  ∃ e', document (updatePlatforms rejects (loaded untagged_page)).2 !! 3 = Some e' ∧
        has_class "available" e' = false ∧ has_class "not-available" e' = true.
Proof.
  destruct (checkbox_without_tag_hides_all rejects (loaded untagged_page) 1 3
              (input None ["platform-checkbox"] [] true)
              (Element "tr" None None ["framework-row"] [("data-platforms", "null")]
                 false true))
    as [_ H]; [reflexivity..|exact H].
Defined.
